(** * sticky_pi_ml.image: the container codec of annotated images

    A shallow embedding of [src/sticky_pi_ml/image.py]: the filename
    convention ([Image._device_datetime_info], [Image.datetime_str]), the
    decoder of the SVG container ([SVGImage._parse_metadata],
    [SVGImage._svg_path_to_contour], [SVGImage._style_to_dic],
    [SVGImage._parse_annotations], [SVGImage.extract_jpeg]), the two
    writers ([Image.to_svg], [Image.to_png]), the detector tags
    ([Image.tag_detector_version], [Image.algo_version],
    [Image.annotation_dict]), the cache of the bitmap ([Image.read],
    [Image.shape], [Image.clear_cache]) and the metadata of a photograph
    ([Image._decode_metadata]).

    Conventions of the embedding.
    - A Python [str] is a [string]; a character stands for one code point
      below 256.
    - An exception is a value of [exn]; a call that may raise returns a
      [result].
    - numpy's floating point values are exact rationals ([Q]).
    - What the code obtains from a library (the XML tree, the parsed path,
      the evaluated literal, the decoded bitmap) enters as data or as a
      function the definitions are parametrised by. *)

From Stdlib Require Import ZArith QArith Qround String Ascii List Lia Bool.
From Stdlib Require Import DecimalString.
From stdpp Require Import gmap strings.
Import ListNotations.
Open Scope Z_scope.

(** ** Exceptions and results *)

Inductive exn : Type :=
| Exception (msg : string)
| KeyError (key : string)
| ValueError
| TypeError
| SyntaxError
| IndexError
| AttributeError
| FileNotFoundError (path : string)
| OSError (path : string).

Inductive result (A : Type) : Type :=
| Ok (a : A)
| Raise (e : exn).
Arguments Ok {A} a.
Arguments Raise {A} e.

Definition is_ok {A} (r : result A) : bool :=
  match r with Ok _ => true | Raise _ => false end.

(** ** Python strings *)

Module Py.

Definition code (c : ascii) : Z := Z.of_nat (nat_of_ascii c).

Definition chars (s : string) : list ascii := list_ascii_of_string s.

(** [s.split(sep)] for a one-character separator. *)
Fixpoint split (sep : ascii) (s : string) : list string :=
  match s with
  | EmptyString => [EmptyString]
  | String c s' =>
      if Ascii.eqb c sep then EmptyString :: split sep s'
      else match split sep s' with
           | f :: fs => String c f :: fs
           | [] => [String c EmptyString]
           end
  end.

(** [str(n)] and ["%i" % n] for an integer. *)
Definition of_Z (n : Z) : string := NilEmpty.string_of_int (Z.to_int n).

(** The double quote character, as a string. *)
Definition dquote : string := String (ascii_of_nat 34) EmptyString.

Definition is_digit (c : ascii) : bool := (48 <=? code c) && (code c <=? 57).

Definition in_range (lo hi c : ascii) : bool :=
  (code lo <=? code c) && (code c <=? code hi).

(** Whitespace as [int()] skips it: the C locale's, and the two
    code points below 256 that are spaces in Unicode only. *)
Definition is_space (c : ascii) : bool :=
  ((9 <=? code c) && (code c <=? 13)) || (code c =? 32)
  || (code c =? 133) || (code c =? 160).

(** The value of a character as a digit of a base up to 36. *)
Definition digit_value (c : ascii) : option Z :=
  let n := code c in
  if (48 <=? n) && (n <=? 57) then Some (n - 48)
  else if (97 <=? n) && (n <=? 122) then Some (n - 87)
  else if (65 <=? n) && (n <=? 90) then Some (n - 55)
  else None.

Fixpoint drop_spaces (l : list ascii) : list ascii :=
  match l with
  | c :: r => if is_space c then drop_spaces r else l
  | [] => []
  end.

(** The digits of an integer literal: digits of the base with single
    underscores between them. [prev] tells that the previous character
    was an underscore. Returns the value, the number of digits and the
    rest of the input; [None] on a doubled or trailing underscore. *)
Fixpoint scan_digits (base : Z) (prev : bool) (acc : Z) (n : nat)
         (l : list ascii) : option (Z * nat * list ascii) :=
  match l with
  | c :: r =>
      if Ascii.eqb c "_" then
        if prev then None else scan_digits base true acc n r
      else match digit_value c with
           | Some v =>
               if v <? base then scan_digits base false (acc * base + v) (S n) r
               else if prev then None else Some (acc, n, l)
           | None => if prev then None else Some (acc, n, l)
           end
  | [] => if prev then None else Some (acc, n, l)
  end.

(** A sign before the digits. *)
Definition strip_sign (l : list ascii) : bool * list ascii :=
  match l with
  | c :: r =>
      if Ascii.eqb c "+" then (false, r)
      else if Ascii.eqb c "-" then (true, r)
      else (false, l)
  | [] => (false, l)
  end.

(** The prefix [0x] or [0X] of base 16; one underscore may follow it. *)
Definition strip_prefix (base : Z) (l : list ascii) : list ascii :=
  if base =? 16 then
    match l with
    | z :: x :: r =>
        if Ascii.eqb z "0" && (Ascii.eqb x "x" || Ascii.eqb x "X") then
          match r with
          | u :: r' => if Ascii.eqb u "_" then r' else r
          | [] => r
          end
        else l
    | _ => l
    end
  else l.

Definition starts_with_underscore (l : list ascii) : bool :=
  match l with c :: _ => Ascii.eqb c "_" | [] => false end.

(** [int(s, base)] for base 10 or 16: surrounding whitespace, a sign,
    for base 16 a prefix, then the digits, which may not start with an
    underscore. Every rejection is a [ValueError]. *)
Definition int (s : string) (base : Z) : result Z :=
  let '(neg, l1) := strip_sign (drop_spaces (chars s)) in
  let l2 := strip_prefix base l1 in
  if starts_with_underscore l2 then Raise ValueError
  else
    match scan_digits base false 0 0 l2 with
    | Some (v, n, rest) =>
        match n, drop_spaces rest with
        | S _, [] => Ok (if neg then - v else v)
        | _, _ => Raise ValueError
        end
    | None => Raise ValueError
    end.

End Py.

(** ** Regular expressions of [strptime]

    [_strptime] turns the format into a regular expression made of
    characters, character classes, sequences and alternatives, and matches
    it by backtracking. A matcher returns its matches in the order
    backtracking tries them; the first one is the match found. *)

Module TimeRE.
Import Py.

Definition parser (A : Type) : Type := list ascii -> list (A * list ascii).

Definition ret {A} (a : A) : parser A := fun l => [(a, l)].

Definition bind {A B} (p : parser A) (f : A -> parser B) : parser B :=
  fun l => flat_map (fun ar => f (fst ar) (snd ar)) (p l).

Definition alt {A} (p q : parser A) : parser A := fun l => p l ++ q l.

Definition sat (f : ascii -> bool) : parser string :=
  fun l => match l with
           | c :: r => if f c then [(String c EmptyString, r)] else []
           | [] => []
           end.

Definition chr (c : ascii) : parser string := sat (Ascii.eqb c).
Definition range (lo hi : ascii) : parser string := sat (in_range lo hi).
Definition d : parser string := sat is_digit.

Definition cat (p q : parser string) : parser string :=
  bind p (fun a => bind q (fun b => ret (a +:+ b))).

(** The groups of the directives, as [TimeRE.__init__] lists them. *)
Definition re_Y : parser string := cat d (cat d (cat d d)).
Definition re_m : parser string :=
  alt (cat (chr "1") (range "0" "2"))
      (alt (cat (chr "0") (range "1" "9")) (range "1" "9")).
Definition re_d : parser string :=
  alt (cat (chr "3") (range "0" "1"))
      (alt (cat (range "1" "2") d)
           (alt (cat (chr "0") (range "1" "9"))
                (alt (range "1" "9") (cat (chr " ") (range "1" "9"))))).
Definition re_H : parser string :=
  alt (cat (chr "2") (range "0" "3")) (alt (cat (range "0" "1") d) d).
Definition re_M : parser string := alt (cat (range "0" "5") d) d.
Definition re_S : parser string :=
  alt (cat (chr "6") (range "0" "1")) (alt (cat (range "0" "5") d) d).

(** The expression of the format [%Y-%m-%d_%H-%M-%S]. *)
Definition format_regex : parser (string * string * string * string * string * string) :=
  bind re_Y (fun gY => bind (chr "-") (fun _ =>
  bind re_m (fun gm => bind (chr "-") (fun _ =>
  bind re_d (fun gd => bind (chr "_") (fun _ =>
  bind re_H (fun gH => bind (chr "-") (fun _ =>
  bind re_M (fun gM => bind (chr "-") (fun _ =>
  bind re_S (fun gS => ret (gY, gm, gd, gH, gM, gS)))))))))))).

End TimeRE.

(** ** Dates *)

Record datetime : Type := mk_datetime {
  year : Z; month : Z; day : Z; hour : Z; minute : Z; second : Z
}.

Definition is_leap (y : Z) : bool :=
  (y mod 4 =? 0) && (negb (y mod 100 =? 0) || (y mod 400 =? 0)).

Definition days_in_month (y m : Z) : Z :=
  if m =? 2 then (if is_leap y then 29 else 28)
  else if (m =? 4) || (m =? 6) || (m =? 9) || (m =? 11) then 30
  else 31.

(** The constructor [datetime.datetime(year, month, day, hour, minute,
    second)] with its range checks. *)
Definition new_datetime (y mo da ho mi se : Z) : result datetime :=
  if (1 <=? y) && (y <=? 9999) && (1 <=? mo) && (mo <=? 12)
     && (1 <=? da) && (da <=? days_in_month y mo)
     && (0 <=? ho) && (ho <=? 23) && (0 <=? mi) && (mi <=? 59)
     && (0 <=? se) && (se <=? 59)
  then Ok (mk_datetime y mo da ho mi se)
  else Raise ValueError.

Definition bind_result {A B} (r : result A) (f : A -> result B) : result B :=
  match r with Ok a => f a | Raise e => Raise e end.

(** [datetime.datetime.strptime(s, '%Y-%m-%d_%H-%M-%S')]: the first match
    of the format's expression has to consume the whole string. *)
Definition strptime (s : string) : result datetime :=
  match TimeRE.format_regex (Py.chars s) with
  | [] => Raise ValueError
  | ((gY, gm, gd, gH, gM, gS), rest) :: _ =>
      match rest with
      | _ :: _ => Raise ValueError
      | [] =>
          bind_result (Py.int gY 10) (fun y =>
          bind_result (Py.int gm 10) (fun mo =>
          bind_result (Py.int gd 10) (fun da =>
          bind_result (Py.int gH 10) (fun ho =>
          bind_result (Py.int gM 10) (fun mi =>
          bind_result (Py.int gS 10) (fun se =>
          new_datetime y mo da ho mi se))))))
      end
  end.

(** ** Image identity: [Image._device_datetime_info] *)

Record file_info : Type := mk_file_info {
  device : string;
  info_datetime : datetime;
  info_filename : string
}.

Definition _device_datetime_info (filename : string) : result file_info :=
  let fields := Py.split "." filename in
  if negb (length fields =? 3)%nat then
    Raise (Exception "Wrong file name, three dot-separated fields expected")
  else
    let device := nth 0 fields EmptyString in
    let checked :=
      if negb (String.length device =? 8)%nat then Raise ValueError
      else Py.int device 16 in
    match checked with
    | Raise ValueError =>
        Raise (Exception ("Invalid device name field in file: " +:+ device))
    | Raise e => Raise e
    | Ok _ =>
        let datetime_string := nth 1 fields EmptyString in
        match strptime datetime_string with
        | Raise ValueError =>
            Raise (Exception "Could not retrieve datetime from filename")
        | Raise e => Raise e
        | Ok date_time => Ok (mk_file_info device date_time filename)
        end
    end.

(** The device field as the specification words it: exactly 8
    hexadecimal characters. *)
Definition is_hex_char (c : ascii) : bool :=
  Py.is_digit c || Py.in_range "a" "f" c || Py.in_range "A" "F" c.

Definition eight_hex_chars (s : string) : bool :=
  (String.length s =? 8)%nat && forallb is_hex_char (Py.chars s).

(** The characters [int(s, 16)] may read. *)
Definition int16_char (c : ascii) : bool :=
  is_hex_char c || Py.is_space c || Ascii.eqb c "+" || Ascii.eqb c "-"
  || Ascii.eqb c "x" || Ascii.eqb c "X" || Ascii.eqb c "_".

(** What makes [_device_datetime_info] reject a filename. *)
Definition rejected (filename : string) : Prop :=
  let fields := Py.split "." filename in
  length fields <> 3%nat
  \/ String.length (nth 0 fields EmptyString) <> 8%nat
  \/ Py.int (nth 0 fields EmptyString) 16 = Raise ValueError
  \/ strptime (nth 1 fields EmptyString) = Raise ValueError.

(** ** Python values

    The values a metadata literal denotes: [None], booleans, integers,
    strings, lists and dictionaries. A dictionary keeps its items in
    insertion order. *)

#[local] Set Warnings "-register-all".

Inductive pyval : Type :=
| PyNone
| PyBool (b : bool)
| PyInt (n : Z)
| PyStr (s : string)
| PyList (l : list pyval)
| PyDict (items : list (pyval * pyval)).

Definition is_key (k : string) (v : pyval) : bool :=
  match v with PyStr s => String.eqb s k | _ => false end.

Fixpoint dict_get (items : list (pyval * pyval)) (k : string) : option pyval :=
  match items with
  | [] => None
  | (k', v) :: rest => if is_key k k' then Some v else dict_get rest k
  end.

(** [v[k]] for a string [k]: a dictionary without the key raises
    [KeyError]; the other values here do not take a string index. *)
Definition getitem (v : pyval) (k : string) : result pyval :=
  match v with
  | PyDict items =>
      match dict_get items k with
      | Some x => Ok x
      | None => Raise (KeyError k)
      end
  | _ => Raise TypeError
  end.

Definition isinstance_dict (v : pyval) : bool :=
  match v with PyDict _ => true | _ => false end.

(** [repr] of a string: single quotes unless the string has a single and
    no double quote; the quote, the backslash and the characters that are
    not printable are escaped. *)
Definition hex_digit (n : Z) : ascii :=
  ascii_of_nat (Z.to_nat (if n <? 10 then 48 + n else 87 + n)).

Definition is_printable (c : ascii) : bool :=
  let n := Py.code c in
  ((32 <=? n) && (n <? 127)) || ((161 <=? n) && negb (n =? 173)).

Definition repr_char (quote c : ascii) : string :=
  let n := Py.code c in
  if Ascii.eqb c quote || Ascii.eqb c "\" then String "\" (String c EmptyString)
  else if n =? 9 then "\t"
  else if n =? 10 then "\n"
  else if n =? 13 then "\r"
  else if is_printable c then String c EmptyString
  else String "\" (String "x" (String (hex_digit (n / 16))
                                    (String (hex_digit (n mod 16)) EmptyString))).

Definition repr_str (s : string) : string :=
  let l := Py.chars s in
  let quote : ascii :=
    if existsb (Ascii.eqb "'") l && negb (existsb (Ascii.eqb (ascii_of_nat 34)) l)
    then ascii_of_nat 34 else "'"%char in
  String quote (fold_right (fun c acc => repr_char quote c +:+ acc)
                           (String quote EmptyString) l).

Fixpoint join (sep : string) (l : list string) : string :=
  match l with
  | [] => EmptyString
  | [x] => x
  | x :: rest => x +:+ sep +:+ join sep rest
  end.

(** [str(v)], which is [repr(v)] but for a string at the top. *)
Fixpoint repr (v : pyval) : string :=
  match v with
  | PyNone => "None"
  | PyBool b => if b then "True" else "False"
  | PyInt n => Py.of_Z n
  | PyStr s => repr_str s
  | PyList l => "[" +:+ join ", " (map repr l) +:+ "]"
  | PyDict items =>
      "{" +:+ join ", " (map (fun kv => repr (fst kv) +:+ ": " +:+ repr (snd kv)) items)
          +:+ "}"
  end.

Definition str (v : pyval) : string :=
  match v with PyStr s => s | _ => repr v end.

(** ** Logging

    A record of the [logging] module: its level and its message, with the
    format string as the code writes it (the arguments are left out). *)

Inductive level : Type := WARNING | ERROR.

Definition log_record : Type := level * string.

(** A computation that logs and may raise. *)
Definition logged (A : Type) : Type := result A * list log_record.

#[global] Instance logged_ret : MRet logged := fun A a => (Ok a, []).

#[global] Instance logged_bind : MBind logged := fun A B f m =>
  match m with
  | (Ok a, l) => let '(r, l') := f a in (r, l ++ l')
  | (Raise e, l) => (Raise e, l)
  end.

Definition raise {A} (e : exn) : logged A := (Raise e, []).
Definition lift {A} (r : result A) : logged A := (r, []).
Definition warning (msg : string) : logged unit := (Ok tt, [(WARNING, msg)]).
Definition error (msg : string) : logged unit := (Ok tt, [(ERROR, msg)]).

(** ** The container document

    What [ElementTree] and [cv2] give for a document: the attributes of the
    elements [findall] returns for each tag, in document order, and the
    shape (rows, columns) of the embedded bitmap as [_get_array] decodes
    it, or the exception it raises. *)

Record document : Type := mk_document {
  images : list (gmap string string);
  stickies : list (gmap string string);
  paths : list (gmap string string);
  jpg_im_shape : result (Z * Z)
}.

(** [attrib[k]] *)
Definition attrib_get (attrs : gmap string string) (k : string) : result string :=
  match attrs !! k with
  | Some v => Ok v
  | None => Raise (KeyError k)
  end.

(** [k in attrib] *)
Definition attrib_in (k : string) (attrs : gmap string string) : bool :=
  bool_decide (is_Some (attrs !! k)).

(** The state [SVGImage._parse_metadata] sets. *)
Record svg_state : Type := mk_svg_state {
  _scale_in_svg : Q * Q;
  _metadata : pyval
}.

Section ParseMetadata.

(** [ast.literal_eval] *)
Variable literal_eval : string -> result pyval.

(** Lines 415-432: the declared size and the scale. *)
Definition declared_width (attrs : gmap string string) : logged string :=
  if attrib_in "w" attrs then lift (attrib_get attrs "w")
  else if attrib_in "width" attrs then lift (attrib_get attrs "width")
  else raise (Exception "Embedded image %s does not have width").

Definition declared_height (attrs : gmap string string) : logged string :=
  if attrib_in "h" attrs then lift (attrib_get attrs "h")
  else if attrib_in "width" attrs then lift (attrib_get attrs "height")
  else raise (Exception "Embedded image %s does not have height").

Definition scale_of (svg_im_shape jpg_im_shape : Z * Z) : Q * Q :=
  ((inject_Z (fst svg_im_shape) / inject_Z (fst jpg_im_shape))%Q,
   (inject_Z (snd svg_im_shape) / inject_Z (snd jpg_im_shape))%Q).

(** Lines 450-458: evaluate the literal, then look at its [Make]. When
    [literal_eval] raises [ValueError] the metadata stays what
    [Image.__init__] set, [None]. *)
Definition eval_metadata (scale : Q * Q) (str : string) : logged svg_state :=
  metadata ←
    match literal_eval str with
    | Ok v => mret v
    | Raise ValueError =>
        error "Cannot parse metadata is %s. String was is `%s`";;
        error "%s";;
        mret PyNone
    | Raise e => raise e
    end;
  make ← lift (getitem metadata "Make");
  (if isinstance_dict make then mret tt
   else warning "Missing custom metadata in %s, Make is `%s`");;
  mret (mk_svg_state scale metadata).

Definition no_metadata (scale : Q * Q) : logged svg_state :=
  warning "No metadata in %s";;
  mret (mk_svg_state scale (PyDict [])).

(** The metadata literal the decoder selects (lines 434-448). *)
Definition select_metadata (doc : document)
           (attrs : gmap string string) (scale : Q * Q) : logged svg_state :=
  match attrs !! "desc" with
  | Some str =>
      if String.eqb str "" then raise (Exception "Empty desc field")
      else eval_metadata scale str
  | None =>
      warning "Cannot find a desc attribute in image. Maybe a legacy SVG";;
      let sticky_data := stickies doc in
      if negb (length sticky_data =? 1)%nat then no_metadata scale
      else match nth 0 sticky_data ∅ !! "metadata" with
           | Some str => eval_metadata scale str
           | None => no_metadata scale
           end
  end.

Definition _parse_metadata (doc : document) : logged svg_state :=
  let ims := images doc in
  if negb (length ims =? 1)%nat then
    raise (Exception "Cannot extract image from %s")
  else
    let attrs := nth 0 ims ∅ in
    im_w ← declared_width attrs;
    im_h ← declared_height attrs;
    h ← lift (Py.int im_h 10);
    w ← lift (Py.int im_w 10);
    shape ← lift (jpg_im_shape doc);
    select_metadata doc attrs (scale_of (h, w) shape).

End ParseMetadata.

(** ** Path geometry

    A point of the document is a complex number, real part x and
    imaginary part y. A segment is what [svgpathtools.parse_path] returns
    for the path vocabulary of the container: a line or a cubic curve. *)

Definition complex : Type := Q * Q.

Definition cadd (a b : complex) : complex := ((fst a + fst b)%Q, (snd a + snd b)%Q).
Definition csub (a b : complex) : complex := ((fst a - fst b)%Q, (snd a - snd b)%Q).
Definition cscale (k : Q) (a : complex) : complex := ((k * fst a)%Q, (k * snd a)%Q).

(** [a == b] on complex numbers. *)
Definition ceqb (a b : complex) : bool :=
  Qeq_bool (fst a) (fst b) && Qeq_bool (snd a) (snd b).

Inductive segment : Type :=
| Line (p0 p1 : complex)
| CubicBezier (p0 p1 p2 p3 : complex).

Definition start (s : segment) : complex :=
  match s with Line p0 _ => p0 | CubicBezier p0 _ _ _ => p0 end.

Definition end_ (s : segment) : complex :=
  match s with Line _ p1 => p1 | CubicBezier _ _ _ p3 => p3 end.

(** The coefficients of [s.poly()], highest degree first. *)
Definition poly (s : segment) : list complex :=
  match s with
  | Line p0 p1 => [csub p1 p0; p0]
  | CubicBezier p0 p1 p2 p3 =>
      [cadd (cadd (cscale (-1) p0) (cscale 3 (csub p1 p2))) p3;
       cscale 3 (cadd (csub p0 (cscale 2 p1)) p2);
       cscale 3 (cadd (cscale (-1) p0) p1);
       p0]
  end.

(** [numpy.poly1d.__call__]: Horner's rule. *)
Definition polyval (coeffs : list complex) (t : Q) : complex :=
  fold_left (fun y c => cadd (cscale t y) c) coeffs (0%Q, 0%Q).

(** [numpy.round]: to the nearest integer, a tie to the even one. *)
Definition np_round (q : Q) : Z :=
  let f := Qfloor q in
  match (q - inject_Z f ?= 1 # 2)%Q with
  | Lt => f
  | Gt => f + 1
  | Eq => if Z.even f then f else f + 1
  end.

Definition contour : Type := list (Z * Z).

(** Lines 469-475: a segment that does not start where the previous one
    ended opens a new sub-path. [sub_paths[-1].append(i)] alters the last
    sub-path; the list is never empty there, as the first segment opens
    one ([last_end] is [None]). *)
Definition ne_last_end (z : complex) (last_end : option complex) : bool :=
  match last_end with
  | None => true
  | Some e => negb (ceqb z e)
  end.

Definition sub_paths_step (acc : list (list segment) * option complex)
           (i : segment) : list (list segment) * option complex :=
  let '(sub_paths, last_end) := acc in
  let sub_paths :=
    if ne_last_end (start i) last_end then sub_paths ++ [[]] else sub_paths in
  (alter (fun sp => sp ++ [i]) (length sub_paths - 1)%nat sub_paths,
   Some (end_ i)).

Definition sub_paths_of (path : list segment) : list (list segment) :=
  fst (fold_left sub_paths_step path ([], None)).

Definition Qsum (l : list Q) : Q := fold_right Qplus 0%Q l.

Section PathToContour.

(** [svgpathtools.parse_path] *)
Variable parse_path : string -> result (list segment).

(** [numpy.abs] of a complex number: its modulus, from the real and the
    imaginary part. *)
Variable cabs : Q -> Q -> Q.

(** The two samples of a segment, at [tvals = [0, 1]]. *)
Definition samples (s : segment) : complex * complex :=
  (polyval (poly s) 0, polyval (poly s) 1).

(** [np.sum(np.abs(starts - ends))] for one sub-path: [starts] are the
    samples at 1 of all segments but the last, [ends] the samples at 0
    of all but the first. *)
Definition sum_magnitude (sp : list segment) : Q :=
  let arr := map samples sp in
  let starts := map snd (firstn (length sp - 1) arr) in
  let ends := map fst (skipn 1 arr) in
  Qsum (zip_with (fun a b => cabs (fst (csub a b)) (snd (csub a b))) starts ends).

(** Lines 489-492: the sample at 0 of every segment, divided by the
    scale and rounded. *)
Definition scaled (scale : Q * Q) (z : complex) : Z * Z :=
  (np_round (fst z / fst scale), np_round (snd z / snd scale)).

Definition ctr_of (scale : Q * Q) (sp : list segment) : contour :=
  map (fun s => scaled scale (fst (samples s))) sp.

(** The loop of lines 478-497 over the sub-paths, [out] accumulating. *)
Fixpoint contours_loop (scale : Q * Q) (sub_paths : list (list segment))
         (out : list contour) : logged (list contour) :=
  match sub_paths with
  | [] => mret out
  | sp :: rest =>
      if negb (Qle_bool (sum_magnitude sp) (1 # 1000)) then
        raise (Exception "SVG path interrupted %s")
      else
        let ctr := ctr_of scale sp in
        if (2 <? length ctr)%nat then contours_loop scale rest (out ++ [ctr])
        else
          warning "polygon with only %i points in %s: %s";;
          contours_loop scale rest out
  end.

Definition _svg_path_to_contour (scale : Q * Q) (p : gmap string string)
  : logged (list contour) :=
  string ← lift (attrib_get p "d");
  match parse_path string with
  | Raise IndexError =>
      warning "Cannot parse svg path from string: %s in %s";;
      mret []
  | Raise e => raise e
  | Ok path => contours_loop scale (sub_paths_of path) []
  end.

End PathToContour.

(** ** The file system and the writers

    The files are a map from paths to contents. [tempfile.mktemp] only
    chooses a name; the names it returns are arguments of the writers. *)

Definition fs_m (A : Type) : Type :=
  gmap string string -> result A * gmap string string.

#[global] Instance fs_ret : MRet fs_m := fun A a fs => (Ok a, fs).

#[global] Instance fs_bind : MBind fs_m := fun A B f m fs =>
  match m fs with
  | (Ok a, fs') => f a fs'
  | (Raise e, fs') => (Raise e, fs')
  end.

Definition fs_lift {A} (r : result A) : fs_m A := fun fs => (r, fs).

(** [try: body except Exception as e: handler(e)] *)
Definition try_except {A} (body : fs_m A) (handler : exn -> fs_m A) : fs_m A :=
  fun fs =>
    match body fs with
    | (Ok a, fs') => (Ok a, fs')
    | (Raise e, fs') => handler e fs'
    end.

(** [try: body finally: cleanup]; an exception of the cleanup replaces
    the outcome of the body. *)
Definition try_finally {A} (body : fs_m A) (cleanup : fs_m unit) : fs_m A :=
  fun fs =>
    let '(r, fs') := body fs in
    match cleanup fs' with
    | (Ok _, fs'') => (r, fs'')
    | (Raise e, fs'') => (Raise e, fs'')
    end.

(** What a writer reads from the image it writes: the outcome of
    [self.read().shape[0:2]], of [self.metadata], of [self._img_buffer()]
    as text, and of [a.svg_element()] for each annotation. *)
Record image : Type := mk_image {
  read : result (Z * Z);
  metadata : result pyval;
  _img_buffer : result string;
  svg_elements : list (result string)
}.

Section Writers.

(** Whether a file can be created at a path. *)
Variable can_write : string -> bool.

(** [cairosvg.svg2png]: the raster of a document at a scale. *)
Variable svg2png : string -> Q -> result string.

(** The steps of [to_png] between the raster and its publication:
    the raster is opened, the bitmap resized to it and the two are
    composited. *)
Variable alpha_composite : image -> string -> result string.

(** [open(path, 'w+')] *)
Definition open_w (path : string) : fs_m unit := fun fs =>
  if can_write path then (Ok tt, <[path := EmptyString]> fs)
  else (Raise (OSError path), fs).

(** [f.write(text)] on the file opened at [path]. *)
Definition write (path text : string) : fs_m unit := fun fs =>
  (Ok tt, alter (fun content => content +:+ text) path fs).

(** [open(path, 'r')] and reading it. *)
Definition read_file (path : string) : fs_m string := fun fs =>
  match fs !! path with
  | Some content => (Ok content, fs)
  | None => (Raise (FileNotFoundError path), fs)
  end.

Definition os_remove (path : string) : fs_m unit := fun fs =>
  match fs !! path with
  | Some _ => (Ok tt, delete path fs)
  | None => (Raise (FileNotFoundError path), fs)
  end.

Definition shutil_move (src dst : string) : fs_m unit := fun fs =>
  match fs !! src with
  | Some content =>
      if can_write dst then (Ok tt, <[dst := content]> (delete src fs))
      else (Raise (OSError dst), fs)
  | None => (Raise (FileNotFoundError src), fs)
  end.

Definition svg_header (width height : Z) : string :=
  "<svg width=" +:+ Py.dquote +:+ Py.of_Z width +:+ Py.dquote
  +:+ " height=" +:+ Py.dquote +:+ Py.of_Z height +:+ Py.dquote
  +:+ " xmlns:xlink=" +:+ Py.dquote +:+ "http://www.w3.org/1999/xlink" +:+ Py.dquote
  +:+ " xmlns=" +:+ Py.dquote +:+ "http://www.w3.org/2000/svg" +:+ Py.dquote
  +:+ " >".

Definition image_element (desc : string) (width height : Z) (encoded : string)
  : string :=
  "<image " +:+ desc
  +:+ " width=" +:+ Py.dquote +:+ Py.of_Z width +:+ Py.dquote
  +:+ " height=" +:+ Py.dquote +:+ Py.of_Z height +:+ Py.dquote
  +:+ " x=" +:+ Py.dquote +:+ "0" +:+ Py.dquote
  +:+ " y=" +:+ Py.dquote +:+ "0" +:+ Py.dquote
  +:+ " xlink:href=" +:+ Py.dquote +:+ "data:image/jpeg;base64," +:+ encoded
  +:+ Py.dquote +:+ "/>".

(** [for a in self._annotations: f.write(a.svg_element())] *)
Fixpoint write_annotations (path : string) (elements : list (result string))
  : fs_m unit :=
  match elements with
  | [] => mret tt
  | a :: rest =>
      element ← fs_lift a;
      write path element;;
      write_annotations path rest
  end.

Definition to_svg (self : image) (tmp_svg target : string)
           (embed_jpeg include_metadata : bool) : fs_m unit :=
  try_except
    (shape ← fs_lift (read self);
     let '(height, width) := shape in
     desc ← (if include_metadata then
               meta ← fs_lift (metadata self);
               mret ("desc=" +:+ Py.dquote +:+ str meta +:+ Py.dquote)
             else mret EmptyString);
     encoded_string ← fs_lift (_img_buffer self);
     open_w tmp_svg;;
     write tmp_svg (svg_header width height);;
     (if embed_jpeg then
        write tmp_svg (image_element desc width height encoded_string)
      else mret tt);;
     write_annotations tmp_svg (svg_elements self);;
     write tmp_svg "</svg>";;
     shutil_move tmp_svg target)
    (fun e => os_remove tmp_svg;; fs_lift (Raise e)).

(** [tmp_svg'] is the name [mktemp] gives to the inner [to_svg]. *)
Definition to_png (self : image) (tmp_png tmp_svg tmp_svg' target : string)
           (scale : Q) : fs_m unit :=
  try_finally
    (to_svg self tmp_svg' tmp_svg false false;;
     document ← read_file tmp_svg;
     raster ← fs_lift (svg2png document scale);
     open_w tmp_png;;
     write tmp_png raster;;
     png ← read_file tmp_png;
     composite ← fs_lift (alpha_composite self png);
     open_w tmp_png;;
     write tmp_png composite;;
     shutil_move tmp_png target)
    (os_remove tmp_svg).

End Writers.

(** ** An evaluator of literals for the examples

    [literal_eval] restricted to the literals [str] writes for [None],
    booleans, integers, strings without quote or backslash, lists and
    dictionaries. What it does not read it refuses with [SyntaxError];
    Python's reads more. *)

Module Literal.

Fixpoint skip (l : list ascii) : list ascii :=
  match l with
  | " "%char :: r => skip r
  | _ => l
  end.

(** The characters up to the closing quote. *)
Fixpoint quoted (quote : ascii) (l : list ascii) : option (string * list ascii) :=
  match l with
  | [] => None
  | c :: r =>
      if Ascii.eqb c quote then Some (EmptyString, r)
      else if Ascii.eqb c "\" then None
      else match quoted quote r with
           | Some (s, r') => Some (String c s, r')
           | None => None
           end
  end.

Fixpoint digits (acc : Z) (l : list ascii) : Z * list ascii :=
  match l with
  | c :: r => if Py.is_digit c then digits (acc * 10 + (Py.code c - 48)) r
              else (acc, l)
  | [] => (acc, l)
  end.

Definition is_quote (c : ascii) : bool :=
  Ascii.eqb c "'" || Ascii.eqb c (ascii_of_nat 34).

Fixpoint value (fuel : nat) (l : list ascii) : option (pyval * list ascii) :=
  match fuel with
  | O => None
  | S fuel =>
      match skip l with
      | "N"%char :: "o"%char :: "n"%char :: "e"%char :: r => Some (PyNone, r)
      | "T"%char :: "r"%char :: "u"%char :: "e"%char :: r => Some (PyBool true, r)
      | "F"%char :: "a"%char :: "l"%char :: "s"%char :: "e"%char :: r =>
          Some (PyBool false, r)
      | "["%char :: r =>
          match skip r with
          | "]"%char :: r' => Some (PyList [], r')
          | _ => match items fuel r with
                 | Some (vs, r') => Some (PyList vs, r')
                 | None => None
                 end
          end
      | "{"%char :: r =>
          match skip r with
          | "}"%char :: r' => Some (PyDict [], r')
          | _ => match pairs fuel r with
                 | Some (kvs, r') => Some (PyDict kvs, r')
                 | None => None
                 end
          end
      | "-"%char :: c :: r =>
          if Py.is_digit c then
            let '(n, r') := digits 0 (c :: r) in Some (PyInt (- n), r')
          else None
      | c :: r =>
          if is_quote c then
            match quoted c r with
            | Some (s, r') => Some (PyStr s, r')
            | None => None
            end
          else if Py.is_digit c then
            let '(n, r') := digits 0 (c :: r) in Some (PyInt n, r')
          else None
      | [] => None
      end
  end
with items (fuel : nat) (l : list ascii) : option (list pyval * list ascii) :=
  match fuel with
  | O => None
  | S fuel =>
      match value fuel l with
      | Some (v, r) =>
          match skip r with
          | "]"%char :: r' => Some ([v], r')
          | ","%char :: r' =>
              match items fuel r' with
              | Some (vs, r'') => Some (v :: vs, r'')
              | None => None
              end
          | _ => None
          end
      | None => None
      end
  end
with pairs (fuel : nat) (l : list ascii) : option (list (pyval * pyval) * list ascii) :=
  match fuel with
  | O => None
  | S fuel =>
      match value fuel l with
      | Some (k, r) =>
          match skip r with
          | ":"%char :: r1 =>
              match value fuel r1 with
              | Some (v, r2) =>
                  match skip r2 with
                  | "}"%char :: r' => Some ([(k, v)], r')
                  | ","%char :: r' =>
                      match pairs fuel r' with
                      | Some (kvs, r'') => Some ((k, v) :: kvs, r'')
                      | None => None
                      end
                  | _ => None
                  end
              | None => None
              end
          | _ => None
          end
      | None => None
      end
  end.

Definition literal_eval (s : string) : result pyval :=
  let l := Py.chars s in
  match value (S (length l)) l with
  | Some (v, r) => match skip r with [] => Ok v | _ => Raise SyntaxError end
  | None => Raise SyntaxError
  end.

End Literal.

(** ** Predicates and examples of the properties *)


(** Consecutive segments of a sub-path are joined: each starts where
    the previous one ends. *)
Fixpoint joined (sp : list segment) : Prop :=
  match sp with
  | a :: (b :: _) as rest => ceqb (start b) (end_ a) = true /\ joined rest
  | _ => True
  end.

(** The state of the splitting loop: every sub-path is a non-empty run of
    joined segments, and [last_end] is the end of the last segment. *)
Definition split_inv (acc : list (list segment) * option complex) : Prop :=
  Forall (fun sp => sp <> [] /\ joined sp) (fst acc)
  /\ match snd acc with
     | None => fst acc = []
     | Some e => exists sps sp a, fst acc = sps ++ [sp ++ [a]] /\ e = end_ a
     end.

Definition short_warning : log_record :=
  (WARNING, "polygon with only %i points in %s: %s").

Definition kept (sp : list segment) : bool := (2 <? length sp)%nat.


(** An instance of the modulus for the examples: the square root of
    [re^2 + im^2], taken downwards to a multiple of [10^-9]. *)
Definition cabs_approx (re im : Q) : Q :=
  Z.sqrt (Qfloor ((re * re + im * im) * inject_Z (10 ^ 18))) # 10 ^ 9.

Definition pt (x y : Z) : complex := (inject_Z x, inject_Z y).

(** A triangle, then two segments apart from it and joined to each other. *)
Definition triangle : list segment :=
  [Line (pt 4 4) (pt 8 4); Line (pt 8 4) (pt 8 8); Line (pt 8 8) (pt 4 4)].

Definition two_segments : list segment :=
  [Line (pt 20 20) (pt 30 20); Line (pt 30 20) (pt 30 30)].

(** Two segments whose adjacent end points are 4 units apart on each axis. *)
Definition far_apart : list segment :=
  [Line (pt 0 0) (pt 1 1); Line (pt 5 5) (pt 6 6)].

(** Two triangles; the second starts [10^-6] away from the end of the
    first. *)
Definition nearly_joined : list segment :=
  [Line (pt 0 0) (pt 9 0); Line (pt 9 0) (pt 9 9); Line (pt 9 9) (pt 0 0);
   Line ((1 # 1000000)%Q, 0%Q) (pt 5 0); Line (pt 5 0) (pt 5 5);
   Line (pt 5 5) ((1 # 1000000)%Q, 0%Q)].

(** What [svgpathtools.parse_path] returns for the path data of the
    examples; for the other strings, the empty path. *)
Definition parse_path_examples (d : string) : result (list segment) :=
  if String.eqb d "M 4,4 L 8,4 L 8,8 L 4,4" then Ok triangle
  else if String.eqb d "M 4,4 L 8,4 L 8,8 L 4,4 M 20,20 L 30,20 L 30,30" then
    Ok (triangle ++ two_segments)
  else if String.eqb d "M 0,0 L 1,1 M 5,5 L 6,6" then Ok far_apart
  else if String.eqb d "M 0,0 L 9,0 L 9,9 L 0,0 M 0.000001,0 L 5,0 L 5,5 L 0.000001,0"
  then Ok nearly_joined
  else Ok [].

Definition path_of (d : string) : gmap string string :=
  {[ "d" := d; "style" := "stroke:#ff0000" ]}.

Definition path_triangle : gmap string string :=
  path_of "M 4,4 L 8,4 L 8,8 L 4,4".

Definition path_triangle_and_two : gmap string string :=
  path_of "M 4,4 L 8,4 L 8,8 L 4,4 M 20,20 L 30,20 L 30,30".



Definition href : string := "{http://www.w3.org/1999/xlink}href".

(** A bitmap of 10 x 10 pixels declared at 20 x 20. *)
Definition doc_twice : document :=
  mk_document
    [ {[ "desc" := "{'Make': {}}"; "width" := "20"; "height" := "20";
         "x" := "0"; "y" := "0"; href := "data:image/jpeg;base64,AAAA" ]} ]
    [] [path_triangle] (Ok (10, 10)).

(** The decoder has one raster element, has read its declared size and
    the shape of the bitmap, and has the scale from them. *)
Definition sized (doc : document) (attrs : gmap string string) (scale : Q * Q)
  : Prop :=
  exists im_w im_h w h shape,
    images doc = [attrs]
    /\ fst (declared_width attrs) = Ok im_w
    /\ fst (declared_height attrs) = Ok im_h
    /\ Py.int im_w 10 = Ok w
    /\ Py.int im_h 10 = Ok h
    /\ jpg_im_shape doc = Ok shape
    /\ scale = scale_of (h, w) shape.

Definition desc_warning : log_record :=
  (WARNING, "Cannot find a desc attribute in image. Maybe a legacy SVG").

Definition no_metadata_warning : log_record := (WARNING, "No metadata in %s").

(** A raster element with an empty description, and one without height. *)
Definition doc_empty_desc : document :=
  mk_document
    [ {[ "desc" := ""; "width" := "10"; "height" := "10";
         href := "data:image/jpeg;base64,AAAA" ]} ]
    [] [] (Ok (10, 10)).

Definition doc_no_height : document :=
  mk_document
    [ {[ "desc" := "{'Make': {}}"; "width" := "10";
         href := "data:image/jpeg;base64,AAAA" ]} ]
    [] [] (Ok (10, 10)).

(** A legacy document: no description, no legacy element. *)
Definition doc_legacy : document :=
  mk_document
    [ {[ "width" := "10"; "height" := "10";
         href := "data:image/jpeg;base64,AAAA" ]} ]
    [] [] (Ok (10, 10)).

(** A document whose metadata has no [Make]. *)
Definition doc_no_make : document :=
  mk_document
    [ {[ "desc" := "{'md5': 'abc'}"; "width" := "10"; "height" := "10";
         href := "data:image/jpeg;base64,AAAA" ]} ]
    [] [] (Ok (10, 10)).

(** The three steps of [to_svg] that precede the opening of the temporary
    file: the shape, the description and the encoded bitmap. *)
Definition prepared (self : image) (include_metadata : bool)
  : result (Z * Z * string * string) :=
  bind_result (read self) (fun shape =>
  bind_result (if include_metadata then
                 bind_result (metadata self) (fun meta =>
                 Ok ("desc=" +:+ Py.dquote +:+ str meta +:+ Py.dquote))
               else Ok EmptyString) (fun desc =>
  bind_result (_img_buffer self) (fun encoded_string =>
  Ok (fst shape, snd shape, desc, encoded_string)))).

(** The elements of the annotations, up to the first that raises. *)
Fixpoint elements_text (elements : list (result string)) : result string :=
  match elements with
  | [] => Ok EmptyString
  | a :: rest =>
      bind_result a (fun element =>
      bind_result (elements_text rest) (fun text => Ok (element +:+ text)))
  end.

(** The text of the whole document. *)
Definition document_text (self : image) (embed_jpeg include_metadata : bool)
  : result string :=
  bind_result (prepared self include_metadata) (fun '(height, width, desc, encoded_string) =>
  bind_result (elements_text (svg_elements self)) (fun annotations =>
  Ok (svg_header width height
      +:+ (if embed_jpeg then image_element desc width height encoded_string
           else EmptyString)
      +:+ annotations +:+ "</svg>"))).

(** The image the decoder makes of [doc_legacy]: its bitmap of 10 x 10
    pixels, the empty map as metadata, no annotation. *)
Definition image_legacy : image :=
  mk_image (Ok (10, 10)) (Ok (PyDict [])) (Ok "AAAA") [].

(** An image whose file cannot be read. *)
Definition image_unreadable : image :=
  mk_image (Raise (Exception "Could not read image file %s"))
           (Ok (PyDict [])) (Ok "AAAA") [].

Definition image_annotated : image :=
  mk_image (Ok (1, 1)) (Ok (PyDict [])) (Ok "AAAA") [Ok "<path/>"].

(** The tree of the document [to_svg] writes for [image_legacy]. *)
Definition doc_rewritten : document :=
  mk_document
    [ {[ "desc" := "{}"; "width" := "10"; "height" := "10"; "x" := "0";
         "y" := "0"; href := "data:image/jpeg;base64,AAAA" ]} ]
    [] [] (Ok (10, 10)).

(** Consecutive sub-paths are apart: the later one does not start where
    the earlier one ends. *)
Fixpoint apart (sub_paths : list (list segment)) : Prop :=
  match sub_paths with
  | sp1 :: (sp2 :: _) as rest =>
      (forall a b, last sp1 = Some a -> head sp2 = Some b ->
                   ceqb (start b) (end_ a) = false)
      /\ apart rest
  | _ => True
  end.

(** A document whose description is not a literal of a map. *)
Definition doc_list_literal : document :=
  mk_document
    [ {[ "desc" := "[1, 2]"; "width" := "10"; "height" := "10";
         href := "data:image/jpeg;base64,AAAA" ]} ]
    [] [] (Ok (10, 10)).

(** ** The annotations of the document

    [SVGImage._style_to_dic] and [SVGImage._parse_annotations]. *)

(** [k, v = s.split(':')] then [d[k] = v]: unpacking raises
    [ValueError] unless the split gives two fields. *)
Definition style_item (d : gmap string string) (s : string)
  : result (gmap string string) :=
  match Py.split ":" s with
  | [k; v] => Ok (<[k := v]> d)
  | _ => Raise ValueError
  end.

Definition _style_to_dic (p : gmap string string) : result (gmap string string) :=
  bind_result (attrib_get p "style") (fun style =>
  fold_left (fun d s => bind_result d (fun d => style_item d s))
            (Py.split ";" style) (Ok ∅)).

(** What [_parse_annotations] passes to [Annotation]: a contour and the
    stroke of the style of its path. *)
Record annotation : Type := mk_annotation {
  annotation_contour : contour;
  annotation_stroke : string
}.

(** The inner loop, [for c in contours]: [style['stroke']] is looked up
    for each contour. *)
Fixpoint annotate (style : gmap string string) (contours : list contour)
         (annotations : list annotation) : result (list annotation) :=
  match contours with
  | [] => Ok annotations
  | c :: rest =>
      bind_result (attrib_get style "stroke") (fun stroke =>
      annotate style rest (annotations ++ [mk_annotation c stroke]))
  end.

Section ParseAnnotations.

Variable parse_path : string -> result (list segment).
Variable cabs : Q -> Q -> Q.

(** The outer loop, [for p in paths]. *)
Fixpoint annotations_loop (scale : Q * Q) (paths : list (gmap string string))
         (annotations : list annotation) : logged (list annotation) :=
  match paths with
  | [] => mret annotations
  | p :: rest =>
      style ← lift (_style_to_dic p);
      contours ← _svg_path_to_contour parse_path cabs scale p;
      annotations ← lift (annotate style contours annotations);
      annotations_loop scale rest annotations
  end.

Definition _parse_annotations (scale : Q * Q) (doc : document)
  : logged (list annotation) :=
  annotations_loop scale (paths doc) [].

End ParseAnnotations.

(** A string without a character. *)
Definition free_of (c : ascii) (s : string) : bool :=
  forallb (fun x => negb (Ascii.eqb x c)) (Py.chars s).

(** A key or a value of a style: without colon and semicolon. *)
Definition plain (s : string) : bool := free_of ";" s && free_of ":" s.

(** The text of a style with the given keys and values. *)
Definition style_text (kvs : list (string * string)) : string :=
  join ";" (map (fun kv => fst kv +:+ ":" +:+ snd kv) kvs).

(** What the decoder gets from one path: its style, its contours and
    their log, and its stroke. *)
Record path_outcome : Type := mk_path_outcome {
  outcome_style : gmap string string;
  outcome_contours : list contour;
  outcome_log : list log_record;
  outcome_stroke : string
}.

Definition path_annotations (o : path_outcome) : list annotation :=
  map (fun c => mk_annotation c (outcome_stroke o)) (outcome_contours o).

(** Paths whose style has no stroke. *)
Definition path_far_apart_unstroked : gmap string string :=
  {[ "d" := "M 0,0 L 1,1 M 5,5 L 6,6"; "style" := "fill:none" ]}.

Definition path_triangle_unstroked : gmap string string :=
  {[ "d" := "M 4,4 L 8,4 L 8,8 L 4,4"; "style" := "fill:none" ]}.

(** A document with two annotated paths. *)
Definition doc_two_paths : document :=
  mk_document
    [ {[ "desc" := "{'Make': {}}"; "width" := "10"; "height" := "10";
         href := "data:image/jpeg;base64,AAAA" ]} ]
    [] [path_triangle_and_two; path_triangle] (Ok (10, 10)).

(** ** The text of the capture time: [Image.datetime_str] *)

(** A field of [strftime] written with two digits. *)
Definition pad2 (n : Z) : string :=
  if n <? 10 then "0" +:+ Py.of_Z n else Py.of_Z n.

(** [self._datetime.strftime('%Y-%m-%d_%H-%M-%S')]. The year is written
    as the C library writes it, without padding: four digits from the
    year 1000 on. *)
Definition datetime_str (dt : datetime) : string :=
  Py.of_Z (year dt) +:+ "-" +:+ pad2 (month dt) +:+ "-" +:+ pad2 (day dt)
  +:+ "_" +:+ pad2 (hour dt) +:+ "-" +:+ pad2 (minute dt)
  +:+ "-" +:+ pad2 (second dt).

(** The years of four digits, and what is checked of the text of each. *)
Definition four_digit_years : list Z :=
  map (fun k => 1000 + Z.of_nat k) (seq 0 (Z.to_nat 9000)).

Definition year_text_ok (y : Z) : bool :=
  match Py.chars (Py.of_Z y) with
  | [a; b; c; e] =>
      Py.is_digit a && Py.is_digit b && Py.is_digit c && Py.is_digit e
      && negb (Ascii.eqb a ".") && negb (Ascii.eqb b ".")
      && negb (Ascii.eqb c ".") && negb (Ascii.eqb e ".")
  | _ => false
  end
  && match Py.int (Py.of_Z y) 10 with Ok v => v =? y | Raise _ => false end.

(** ** The embedded bitmap: [SVGImage.extract_jpeg]

    With [as_buffer=True], as [_parse], [_img_buffer] and [_get_array]
    call it: the decoded bytes are returned. *)

(** The two quote characters, which [strip] drops at both ends of the
    payload. *)
Definition quote_char (c : ascii) : bool :=
  Ascii.eqb c (ascii_of_nat 34) || Ascii.eqb c "'".

Fixpoint lstrip (l : list ascii) : list ascii :=
  match l with
  | c :: r => if quote_char c then lstrip r else l
  | [] => []
  end.

Definition strip_quotes (s : string) : string :=
  string_of_list_ascii (rev (lstrip (rev (lstrip (Py.chars s))))).

Section ExtractJpeg.

(** [base64.b64decode] *)
Variable b64decode : string -> result string.

Definition _extract_jpeg_id (ims : list (gmap string string)) (id : nat)
  : result string :=
  match ims !! id with
  | None => Raise IndexError
  | Some im =>
      bind_result (attrib_get im href) (fun reference =>
      match Py.split "," reference with
      | _ :: utf_str :: _ => b64decode (strip_quotes utf_str)
      | _ => Raise IndexError
      end)
  end.

(** ["%s" % target] is [None] when no target is given. *)
Definition extract_jpeg (doc : document) (target : option string)
  : result string :=
  if negb (length (images doc) =? 1)%nat then
    Raise (Exception ("Cannot extract image from " +:+ default "None" target))
  else _extract_jpeg_id (images doc) 0.

End ExtractJpeg.

(** A string without quotes. *)
Definition unquoted (s : string) : bool :=
  forallb (fun c => negb (quote_char c)) (Py.chars s).
(** ** Detector tags: [Image.tag_detector_version], [Image.algo_version]
    and [Image.annotation_dict]

    The metadata is a dictionary keyed by strings. Besides the values a
    literal denotes it can hold the datetime object of the file name. *)

Inductive meta_value : Type :=
| Plain (v : pyval)
| DatetimeObject (dt : datetime).

(** What [annotation_dict] can raise besides the exceptions of [exn]:
    a local variable read before it is bound. *)
Inductive tag_exn : Type :=
| UnboundLocalError (name : string)
| Raised (e : exn).

Definition tag_result (A : Type) : Type := A + tag_exn.

(** The property [metadata]: decoded on first use, then kept.
    [decoded] is the outcome of [_decode_metadata]. *)
Definition force_metadata (decoded : result (gmap string meta_value)) (m : option (gmap string meta_value))
  : result (gmap string meta_value) * option (gmap string meta_value) :=
  match m with
  | Some d => (Ok d, m)
  | None =>
      match decoded with
      | Ok d => (Ok d, Some d)
      | Raise e => (Raise e, None)
      end
  end.

(** [tag_detector_version(name, version)] on the state [_metadata];
    [md5] is the outcome of the property [md5]. The dictionary is
    updated in place, so what is set before an exception stays. *)
Definition tag_detector_version
           (decoded : result (gmap string meta_value)) (md5 : result string) (filename : string)
           (name version : pyval) (m : option (gmap string meta_value))
  : result unit * option (gmap string meta_value) :=
  match force_metadata decoded m with
  | (Raise e, m') => (Raise e, m')
  | (Ok d, _) =>
      match md5 with
      | Raise e => (Raise e, Some d)
      | Ok sum =>
          let d1 := <["md5" := Plain (PyStr sum)]> d in
          match _device_datetime_info filename with
          | Raise e => (Raise e, Some d1)
          | Ok info =>
              let d2 :=
                <["filename" := Plain (PyStr (info_filename info))]>
                  (<["datetime" := DatetimeObject (info_datetime info)]>
                     (<["device" := Plain (PyStr (device info))]> d1)) in
              (Ok tt,
               Some (<["algo_version" := Plain version]>
                       (<["algo_name" := Plain name]> d2)))
          end
      end
  end.

(** The property [algo_version]: [_metadata] is subscripted as it is,
    without being decoded first. *)
Definition algo_version (m : option (gmap string meta_value)) : logged meta_value :=
  match m with
  | None => raise TypeError
  | Some d =>
      match d !! "algo_version" with
      | Some v => mret v
      | None => warning "No detector version";; mret (Plain PyNone)
      end
  end.

(** The keys [annotation_dict] passes on. *)
Definition passed_keys : list string :=
  ["device"; "datetime"; "algo_name"; "algo_version"; "md5"].

(** [{k: self._metadata[k] for k in keys}] *)
Fixpoint pick (d : gmap string meta_value) (keys : list string)
  : result (list (string * meta_value)) :=
  match keys with
  | [] => Ok []
  | k :: rest =>
      match d !! k with
      | None => Raise (KeyError k)
      | Some v => bind_result (pick d rest) (fun items => Ok ((k, v) :: items))
      end
  end.

(** [[a.to_dict() for a in self._annotations]] *)
Fixpoint to_dicts (annotations : list (result pyval)) : result (list pyval) :=
  match annotations with
  | [] => Ok []
  | a :: rest =>
      bind_result a (fun v =>
      bind_result (to_dicts rest) (fun vs => Ok (v :: vs)))
  end.

(** What [annotation_dict] returns: the dictionary, or its JSON text. *)
Inductive annotation_out : Type :=
| AsDict (annotations : list pyval) (metadata : list (string * meta_value))
| AsJson (text : string).

Section AnnotationDict.

(** [json.dumps] of the dictionary of annotations and metadata. *)
Variable json_dumps :
  list pyval -> list (string * meta_value) -> result string.

(** [annotation_dict(as_json)]; [annotations] holds the outcome of
    [to_dict] of each annotation. On a [KeyError] the handler binds
    [meta_to_pass], and [metadata_to_pass], which the next statement
    reads, stays unbound. *)
Definition annotation_dict (annotations : list (result pyval))
           (as_json : bool) (m : option (gmap string meta_value)) : tag_result annotation_out :=
  let metadata_to_pass : result (option (list (string * meta_value))) :=
    match m with
    | None => Raise TypeError
    | Some d =>
        match pick d passed_keys with
        | Ok items => Ok (Some items)
        | Raise (KeyError _) => Ok None
        | Raise e => Raise e
        end
    end in
  match metadata_to_pass with
  | Raise e => inr (Raised e)
  | Ok bound =>
      match to_dicts annotations with
      | Raise e => inr (Raised e)
      | Ok dicts =>
          match bound with
          | None => inr (UnboundLocalError "metadata_to_pass")
          | Some items =>
              if as_json then
                match json_dumps dicts items with
                | Ok text => inl (AsJson text)
                | Raise e => inr (Raised e)
                end
              else inl (AsDict dicts items)
          end
      end
  end.

End AnnotationDict.
(** ** The bitmap and its cache: [Image.read], [Image.shape] and
    [Image.clear_cache] *)

Module Cache.

Section Cache.

(** The bitmaps, and [im.shape]. *)
Variable array : Type.
Variable shape_of : array -> list Z.

(** The attributes [_cached_image] and [_shape]; [None] is [None]. *)
Record state : Type := mk_state {
  _cached_image : option array;
  _shape : option (list Z)
}.

(** What [Image.__init__] sets. *)
Definition initial : state := mk_state None None.

(** [Image._get_array]: [imread] is what [cv2.imread] returns, [None]
    for a file it cannot read. *)
Definition _get_array (imread : option array) : result array :=
  match imread with
  | Some out => Ok out
  | None => Raise (Exception "Could not read image file %s")
  end.

(** [read(cache)]; [imread] is what the file holds at the call. *)
Definition read (imread : option array) (cache : bool) (st : state)
  : result array * state :=
  let got :=
    match _cached_image st with
    | None => _get_array imread
    | Some im => Ok im
    end in
  match got with
  | Raise e => (Raise e, st)
  | Ok im =>
      let cached :=
        match _cached_image st with
        | None => if cache then Some im else None
        | Some c => Some c
        end in
      (Ok im, mk_state cached (Some (shape_of im)))
  end.

(** The property [shape]: read once, if no shape is known. *)
Definition shape (imread : option array) (st : state)
  : result (option (list Z)) * state :=
  match _shape st with
  | None =>
      match read imread false st with
      | (Raise e, st') => (Raise e, st')
      | (Ok _, st') => (Ok (_shape st'), st')
      end
  | Some s => (Ok (Some s), st)
  end.

(** [clear_cache()], for what it does to the image itself. *)
Definition clear_cache (st : state) : state := mk_state None (_shape st).

(** The calls on an image, each with what the file holds at the call. *)
Inductive call : Type :=
| Read (imread : option array) (cache : bool)
| Shape (imread : option array)
| ClearCache.

Definition step (st : state) (c : call) : state :=
  match c with
  | Read imread cache => snd (read imread cache st)
  | Shape imread => snd (shape imread st)
  | ClearCache => clear_cache st
  end.

(** The image after a history of calls. *)
Definition after (calls : list call) : state := fold_left step calls initial.

(** The shape is that of the cached bitmap. *)
Definition consistent (st : state) : Prop :=
  forall im, _cached_image st = Some im -> _shape st = Some (shape_of im).

End Cache.

End Cache.
(** ** The metadata of a photograph: [Image._decode_metadata] *)

Section DecodeMetadata.

(** [ast.literal_eval] *)
Variable literal_eval : string -> result pyval.

(** [literal_eval(out['Make'])]: what is neither text nor a syntax tree
    is refused with [ValueError]. *)
Definition eval_make (make : pyval) : result pyval :=
  match make with
  | PyStr s => literal_eval s
  | _ => Raise ValueError
  end.

(** [exif] is what lines 275-283 make of [img._getexif()]: the tags by
    name, or [None] for a file without EXIF data, on which [.items()]
    fails. *)
Definition _decode_metadata (exif : option (gmap string pyval))
  : logged (gmap string pyval) :=
  match exif with
  | None => raise AttributeError
  | Some out =>
      match out !! "Make" with
      | None => raise (KeyError "Make")
      | Some make =>
          match eval_make make with
          | Ok v => mret (<["Make" := v]> out)
          | Raise ValueError =>
              warning "Missing custom metadata in %s, Make is `%s`";;
              mret out
          | Raise e => raise e
          end
      end
  end.

End DecodeMetadata.

(** * Properties *)

(** ** Facts about the identity parser *)

Lemma int_raises_ValueError s base e :
  Py.int s base = Raise e -> e = ValueError.
Proof.
  unfold Py.int.
  destruct (Py.strip_sign (Py.drop_spaces (Py.chars s))) as [neg l1].
  destruct (Py.starts_with_underscore (Py.strip_prefix base l1)); [congruence|].
  destruct (Py.scan_digits base false 0 0 (Py.strip_prefix base l1))
    as [[[v n] rest]|]; [|congruence].
  destruct n; [congruence|].
  destruct (Py.drop_spaces rest); congruence.
Qed.

Lemma bind_result_raises {A B} (r : result A) (f : A -> result B) e :
  bind_result r f = Raise e ->
  r = Raise e \/ exists a, r = Ok a /\ f a = Raise e.
Proof. destruct r as [a|e']; cbn; intros H; [right; eauto | left; congruence]. Qed.

Lemma new_datetime_raises y mo da ho mi se e :
  new_datetime y mo da ho mi se = Raise e -> e = ValueError.
Proof. unfold new_datetime. case (_ && _); congruence. Qed.

Lemma strptime_raises_ValueError s e : strptime s = Raise e -> e = ValueError.
Proof.
  unfold strptime.
  destruct (TimeRE.format_regex (Py.chars s)) as [|[[[[[[gY gm] gd] gH] gM] gS] rest] ms];
    [congruence|].
  destruct rest; [|congruence].
  intros H.
  repeat (apply bind_result_raises in H;
          destruct H as [H | (? & _ & H)];
          [exact (int_raises_ValueError _ _ _ H)|]).
  exact (new_datetime_raises _ _ _ _ _ _ _ H).
Qed.

Lemma hex_char_facts c :
  is_hex_char c = true ->
  Py.is_space c = false /\ Ascii.eqb c "_" = false
  /\ Ascii.eqb c "x" = false /\ Ascii.eqb c "X" = false
  /\ Ascii.eqb c "+" = false /\ Ascii.eqb c "-" = false
  /\ exists v, Py.digit_value c = Some v /\ (v <? 16) = true.
Proof.
  destruct c as [[] [] [] [] [] [] [] []]; vm_compute; intros H;
    try discriminate H; repeat split; eauto.
Qed.

Lemma digit_value_hex c v :
  Py.digit_value c = Some v -> (v <? 16) = true -> is_hex_char c = true.
Proof.
  destruct c as [[] [] [] [] [] [] [] []]; vm_compute;
    intros [= <-]; intros H; try discriminate H; reflexivity.
Qed.

Lemma scan_hex_digits l :
  forallb is_hex_char l = true ->
  forall acc n, exists v,
    Py.scan_digits 16 false acc n l = Some (v, (n + length l)%nat, []).
Proof.
  induction l as [|c l IH]; cbn [forallb]; intros H acc n.
  - exists acc. cbn. rewrite Nat.add_0_r. reflexivity.
  - apply andb_true_iff in H. destruct H as [Hc Hl].
    destruct (hex_char_facts c Hc) as (_ & Hus & _ & _ & _ & _ & v & Hv & Hlt).
    cbn [Py.scan_digits]. rewrite Hus, Hv, Hlt.
    destruct (IH Hl (acc * 16 + v) (S n)) as [v' ->].
    exists v'. cbn [length]. rewrite Nat.add_succ_r. reflexivity.
Qed.

(** Every non-empty string of hexadecimal characters is read. *)
Lemma int_accepts_hex s :
  s <> EmptyString -> forallb is_hex_char (Py.chars s) = true ->
  is_ok (Py.int s 16) = true.
Proof.
  intros Hne Hall. unfold Py.int.
  destruct (Py.chars s) as [|c l] eqn:Hs.
  { destruct s; [contradiction | discriminate]. }
  pose proof Hall as Hall'.
  cbn [forallb] in Hall. apply andb_true_iff in Hall. destruct Hall as [Hc Hl].
  destruct (hex_char_facts c Hc) as (Hsp & Hus & Hx & HX & Hplus & Hminus & _).
  cbn [Py.drop_spaces]. rewrite Hsp.
  unfold Py.strip_sign. rewrite Hplus, Hminus.
  assert (Hpre : Py.strip_prefix 16 (c :: l) = c :: l).
  { unfold Py.strip_prefix. cbn [Z.eqb Pos.eqb].
    destruct l as [|x r]; [reflexivity|].
    cbn [forallb] in Hl. apply andb_true_iff in Hl. destruct Hl as [Hxh _].
    destruct (hex_char_facts x Hxh) as (_ & _ & -> & -> & _).
    rewrite andb_false_r. reflexivity. }
  rewrite Hpre. cbn [Py.starts_with_underscore]. rewrite Hus.
  destruct (scan_hex_digits (c :: l) Hall' 0 0%nat) as [v' ->].
  reflexivity.
Qed.

Lemma drop_spaces_chars l :
  exists sp, l = sp ++ Py.drop_spaces l /\ forallb Py.is_space sp = true.
Proof.
  induction l as [|c l (sp & Hl & Hsp)]; cbn [Py.drop_spaces].
  - exists []. split; reflexivity.
  - destruct (Py.is_space c) eqn:E.
    + exists (c :: sp). cbn. rewrite E, Hsp. split; [f_equal; exact Hl | reflexivity].
    + exists []. split; reflexivity.
Qed.

Lemma drop_spaces_nil l : Py.drop_spaces l = [] -> forallb Py.is_space l = true.
Proof.
  destruct (drop_spaces_chars l) as (sp & Hl & Hsp). intros H.
  rewrite H, app_nil_r in Hl. subst sp. exact Hsp.
Qed.

Lemma scan_digits_chars l :
  forall prev acc n v n' rest,
    Py.scan_digits 16 prev acc n l = Some (v, n', rest) ->
    exists pre, l = pre ++ rest /\ forallb int16_char pre = true.
Proof.
  induction l as [|c l IH]; intros prev acc n v n' rest; cbn [Py.scan_digits].
  - destruct prev; [discriminate|]. intros [= <- <- <-].
    exists []. split; reflexivity.
  - destruct (Ascii.eqb c "_") eqn:Eus.
    + destruct prev; [discriminate|]. intros H.
      destruct (IH _ _ _ _ _ _ H) as (pre & -> & Hpre).
      exists (c :: pre). split; [reflexivity|]. cbn [forallb].
      unfold int16_char at 1. rewrite Eus, Hpre, !orb_true_r. reflexivity.
    + destruct (Py.digit_value c) as [d|] eqn:Ed.
      * destruct (d <? 16) eqn:Elt.
        -- intros H. destruct (IH _ _ _ _ _ _ H) as (pre & -> & Hpre).
           exists (c :: pre). split; [reflexivity|]. cbn [forallb].
           unfold int16_char at 1. rewrite (digit_value_hex c d Ed Elt), Hpre.
           reflexivity.
        -- destruct prev; [discriminate|]. intros [= <- <- <-].
           exists []. split; reflexivity.
      * destruct prev; [discriminate|]. intros [= <- <- <-].
        exists []. split; reflexivity.
Qed.

Lemma forallb_weaken {A} (f g : A -> bool) l :
  (forall a, f a = true -> g a = true) -> forallb f l = true -> forallb g l = true.
Proof.
  intros Hfg. induction l as [|a l IH]; cbn; [reflexivity|].
  intros H. apply andb_true_iff in H. destruct H as [Ha Hl].
  rewrite (Hfg a Ha), (IH Hl). reflexivity.
Qed.

Lemma is_space_int16 c : Py.is_space c = true -> int16_char c = true.
Proof. intros H. unfold int16_char. rewrite H, !orb_true_r. reflexivity. Qed.

(** A string [int(s, 16)] reads is made of hexadecimal characters,
    whitespace, signs, [x] and underscores. *)
Lemma int_ok_chars s v :
  Py.int s 16 = Ok v -> forallb int16_char (Py.chars s) = true.
Proof.
  unfold Py.int.
  destruct (drop_spaces_chars (Py.chars s)) as (sp & Hs & Hsp).
  rewrite Hs at 2. rewrite forallb_app.
  rewrite (forallb_weaken _ _ _ is_space_int16 Hsp). cbn [andb].
  set (l0 := Py.drop_spaces (Py.chars s)). clearbody l0. clear Hs.
  assert (Hsign : exists sg, l0 = sg ++ snd (Py.strip_sign l0)
                             /\ forallb int16_char sg = true).
  { unfold Py.strip_sign. destruct l0 as [|c r]; [exists []; split; reflexivity|].
    destruct (Ascii.eqb c "+") eqn:Ep.
    - exists [c]. split; [reflexivity|]. cbn. unfold int16_char.
      rewrite Ep, !orb_true_r. reflexivity.
    - destruct (Ascii.eqb c "-") eqn:Em.
      + exists [c]. split; [reflexivity|]. cbn. unfold int16_char.
        rewrite Em, !orb_true_r. reflexivity.
      + exists []. split; reflexivity. }
  destruct Hsign as (sg & Hl0 & Hsg).
  destruct (Py.strip_sign l0) as [neg l1]. cbn [snd] in Hl0. subst l0.
  rewrite forallb_app, Hsg. cbn [andb].
  assert (Hpre : exists px, l1 = px ++ Py.strip_prefix 16 l1
                            /\ forallb int16_char px = true).
  { unfold Py.strip_prefix. cbn [Z.eqb Pos.eqb].
    destruct l1 as [|z [|x r]]; try (exists []; split; reflexivity).
    destruct (Ascii.eqb z "0" && (Ascii.eqb x "x" || Ascii.eqb x "X")) eqn:E.
    - apply andb_true_iff in E. destruct E as [Ez Ex].
      assert (Hz : int16_char z = true)
        by (apply Ascii.eqb_eq in Ez; subst z; reflexivity).
      assert (Hx : int16_char x = true).
      { unfold int16_char. apply orb_true_iff in Ex.
        destruct Ex as [-> | ->]; rewrite !orb_true_r; reflexivity. }
      destruct r as [|u r'].
      + exists [z; x]. split; [reflexivity|]. cbn. rewrite Hz, Hx. reflexivity.
      + destruct (Ascii.eqb u "_") eqn:Eu.
        * exists [z; x; u]. split; [reflexivity|]. cbn. rewrite Hz, Hx.
          unfold int16_char. rewrite Eu, !orb_true_r. reflexivity.
        * exists [z; x]. split; [reflexivity|]. cbn. rewrite Hz, Hx. reflexivity.
    - exists []. split; reflexivity. }
  destruct Hpre as (px & Hl1 & Hpx).
  set (l2 := Py.strip_prefix 16 l1) in *. clearbody l2. subst l1.
  rewrite forallb_app, Hpx. cbn [andb].
  destruct (Py.starts_with_underscore l2); [discriminate|].
  destruct (Py.scan_digits 16 false 0 0 l2) as [[[v' n] rest]|] eqn:Escan;
    [|discriminate].
  destruct n; [discriminate|].
  destruct (Py.drop_spaces rest) eqn:Erest; [|discriminate].
  intros _.
  destruct (scan_digits_chars _ _ _ _ _ _ _ Escan) as (pre & -> & Hpre).
  rewrite forallb_app, Hpre. cbn [andb].
  exact (forallb_weaken _ _ _ is_space_int16 (drop_spaces_nil _ Erest)).
Qed.

Lemma device_datetime_info_rejected filename :
  rejected filename ->
  exists msg, _device_datetime_info filename = Raise (Exception msg).
Proof.
  unfold rejected, _device_datetime_info.
  set (fields := Py.split "." filename).
  intros H.
  destruct (Nat.eqb_spec (length fields) 3) as [Hn|Hn]; cbn [negb].
  2: { eauto. }
  destruct H as [H|H]; [contradiction|].
  destruct (Nat.eqb_spec (String.length (nth 0 fields EmptyString)) 8) as [H8|H8];
    cbn [negb].
  2: { eauto. }
  destruct H as [H|H]; [contradiction|].
  destruct (Py.int (nth 0 fields EmptyString) 16) as [v|e] eqn:Ei.
  - destruct H as [H|H]; [discriminate|]. rewrite H. eauto.
  - rewrite (int_raises_ValueError _ _ _ Ei). eauto.
Qed.

Lemma device_datetime_info_accepted filename :
  ~ rejected filename ->
  exists dt,
    strptime (nth 1 (Py.split "." filename) EmptyString) = Ok dt /\
    _device_datetime_info filename
    = Ok (mk_file_info (nth 0 (Py.split "." filename) EmptyString) dt filename).
Proof.
  unfold rejected, _device_datetime_info.
  set (fields := Py.split "." filename).
  intros H.
  destruct (Nat.eqb_spec (length fields) 3) as [Hn|Hn]; cbn [negb].
  2: { exfalso. apply H. now left. }
  destruct (Nat.eqb_spec (String.length (nth 0 fields EmptyString)) 8) as [H8|H8];
    cbn [negb].
  2: { exfalso. apply H. right. now left. }
  destruct (Py.int (nth 0 fields EmptyString) 16) as [v|e] eqn:Ei.
  2: { exfalso. apply H. right. right. left.
       f_equal. exact (int_raises_ValueError _ _ _ Ei). }
  destruct (strptime (nth 1 fields EmptyString)) as [dt|e] eqn:Es.
  - eauto.
  - exfalso. apply H. right. right. right.
    f_equal. exact (strptime_raises_ValueError _ _ Es).
Qed.

(** The filenames of the specification's examples, and two that the
    parsers of the library read although they are not in the fixed
    format. *)
Lemma device_datetime_info_examples :
  _device_datetime_info "bad.jpg"
  = Raise (Exception "Wrong file name, three dot-separated fields expected")
  /\ _device_datetime_info "ZZZZZZZZ.2020-06-20_21-33-24.jpg"
     = Raise (Exception "Invalid device name field in file: ZZZZZZZZ")
  /\ _device_datetime_info "5c173ff2.2020-02-30_21-33-24.jpg"
     = Raise (Exception "Could not retrieve datetime from filename")
  /\ _device_datetime_info "5c_173ff.2020-06-20_21-33-24.jpg"
     = Ok (mk_file_info "5c_173ff" (mk_datetime 2020 6 20 21 33 24)
                        "5c_173ff.2020-06-20_21-33-24.jpg")
  /\ _device_datetime_info "5c173ff2.2020-6-20_21-33-24.jpg"
     = Ok (mk_file_info "5c173ff2" (mk_datetime 2020 6 20 21 33 24)
                        "5c173ff2.2020-6-20_21-33-24.jpg").
Proof. repeat split; vm_compute; reflexivity. Qed.

(** C4, as the specification states it, fails: a device field that is not
    made of 8 hexadecimal characters is accepted when [int(device, 16)]
    reads it, here with its [0x] prefix. *)
Lemma device_datetime_info_accepts_prefixed_device :
  Py.split "." "0x5c173f.2020-06-20_21-33-24.jpg"
  = ["0x5c173f"; "2020-06-20_21-33-24"; "jpg"]
  /\ eight_hex_chars "0x5c173f" = false
  /\ _device_datetime_info "0x5c173f.2020-06-20_21-33-24.jpg"
     = Ok (mk_file_info "0x5c173f" (mk_datetime 2020 6 20 21 33 24)
                        "0x5c173f.2020-06-20_21-33-24.jpg").
Proof. repeat split; vm_compute; reflexivity. Qed.

(** C4, amended: the example filename parses to its device and date, and a
    filename fails with an [Exception] exactly when it has not three
    dot-separated fields, or its device field has not 8 characters or is
    refused by [int(device, 16)], or its timestamp field is refused by
    [strptime] with the format [%Y-%m-%d_%H-%M-%S]; every other filename
    parses to its first field and the date of its second.
    [int(device, 16)] reads every device of 8 hexadecimal characters, and
    refuses a device with a character that is neither a hexadecimal
    digit nor whitespace, a sign, [x] or an underscore. *)
Theorem device_datetime_info_spec :
  _device_datetime_info "5c173ff2.2020-06-20_21-33-24.jpg"
  = Ok (mk_file_info "5c173ff2" (mk_datetime 2020 6 20 21 33 24)
                     "5c173ff2.2020-06-20_21-33-24.jpg")
  /\ (forall filename,
         rejected filename ->
         exists msg, _device_datetime_info filename = Raise (Exception msg))
  /\ (forall filename,
         ~ rejected filename ->
         exists dt,
           strptime (nth 1 (Py.split "." filename) EmptyString) = Ok dt /\
           _device_datetime_info filename
           = Ok (mk_file_info (nth 0 (Py.split "." filename) EmptyString)
                              dt filename))
  /\ (forall device,
         eight_hex_chars device = true ->
         String.length device = 8%nat /\ is_ok (Py.int device 16) = true)
  /\ (forall device,
         forallb int16_char (Py.chars device) = false ->
         Py.int device 16 = Raise ValueError).
Proof.
  split; [vm_compute; reflexivity|].
  split; [exact device_datetime_info_rejected|].
  split; [exact device_datetime_info_accepted|].
  split.
  - intros device H. unfold eight_hex_chars in H.
    apply andb_true_iff in H. destruct H as [Hlen Hall].
    apply Nat.eqb_eq in Hlen. split; [exact Hlen|].
    apply int_accepts_hex; [|exact Hall].
    intros ->. discriminate Hlen.
  - intros device H.
    destruct (Py.int device 16) as [v|e] eqn:E.
    + rewrite (int_ok_chars device v E) in H. discriminate H.
    + rewrite (int_raises_ValueError _ _ _ E). reflexivity.
Qed.

Lemma device_datetime_info_spec_witness :
  rejected "bad.jpg"
  /\ exists msg, _device_datetime_info "bad.jpg" = Raise (Exception msg).
Proof.
  assert (H : rejected "bad.jpg") by (left; vm_compute; lia).
  split; [exact H|].
  exact (proj1 (proj2 device_datetime_info_spec) "bad.jpg" H).
Defined.

(** ** Facts about the path geometry *)




Lemma joined_snoc sp a i :
  joined (sp ++ [a]) -> ceqb (start i) (end_ a) = true ->
  joined ((sp ++ [a]) ++ [i]).
Proof.
  induction sp as [|x sp IH]; cbn.
  - auto.
  - destruct sp as [|y sp]; cbn in *.
    + intros [H _] Hi. auto.
    + intros [H Hj] Hi. split; [exact H|]. apply IH; assumption.
Qed.

Lemma alter_last {A} (f : A -> A) (l : list A) (x : A) :
  alter f (length (l ++ [x]) - 1)%nat (l ++ [x]) = l ++ [f x].
Proof.
  rewrite length_app. cbn. replace (length l + 1 - 1)%nat with (length l) by lia.
  induction l as [|y l IH]; cbn; [reflexivity|]. f_equal. exact IH.
Qed.

Lemma sub_paths_step_inv acc i : split_inv acc -> split_inv (sub_paths_step acc i).
Proof.
  destruct acc as [sub_paths last_end]. unfold split_inv. cbn [fst snd].
  intros [Hall Hlast]. unfold sub_paths_step.
  destruct (ne_last_end (start i) last_end) eqn:Hne.
  - rewrite (alter_last (fun sp => sp ++ [i]) sub_paths []). cbn [fst snd app].
    split.
    + apply Forall_app. split; [exact Hall|].
      constructor; [|constructor]. split; [discriminate | exact I].
    + exists sub_paths, [], i. split; reflexivity.
  - destruct last_end as [e|]; [|discriminate].
    destruct Hlast as (sps & sp & a & -> & ->).
    rewrite alter_last. cbn [fst snd].
    apply Forall_app in Hall. destruct Hall as [Hsps Hsp].
    apply Forall_cons in Hsp. destruct Hsp as [[_ Hj] _].
    cbn in Hne. apply negb_false_iff in Hne.
    split.
    + apply Forall_app. split; [exact Hsps|].
      constructor; [|constructor]. split.
      * destruct (sp ++ [a]); discriminate.
      * apply joined_snoc; assumption.
    + exists sps, (sp ++ [a]), i. split; reflexivity.
Qed.

Lemma fold_sub_paths_inv path acc :
  split_inv acc -> split_inv (fold_left sub_paths_step path acc).
Proof.
  revert acc. induction path as [|i path IH]; cbn; intros acc H; [exact H|].
  apply IH, sub_paths_step_inv, H.
Qed.

Lemma sub_paths_of_joined path :
  Forall (fun sp => sp <> [] /\ joined sp) (sub_paths_of path).
Proof.
  unfold sub_paths_of.
  apply (fold_sub_paths_inv path ([], None)).
  split; cbn; [constructor | reflexivity].
Qed.

Section ContinuityCheck.

Variable cabs : Q -> Q -> Q.
Hypothesis cabs_zero : forall re im, (re == 0)%Q -> (im == 0)%Q -> (cabs re im == 0)%Q.






End ContinuityCheck.





(** Whatever the modulus, a loop that returns has kept the contours of
    the sub-paths of more than two segments. *)
Lemma contours_loop_ok cabs scale sub_paths :
  forall out contours log,
    contours_loop cabs scale sub_paths out = (Ok contours, log) ->
    contours = out ++ map (ctr_of scale) (List.filter kept sub_paths).
Proof.
  induction sub_paths as [|sp sub_paths IH]; intros out contours log; cbn [contours_loop].
  - cbn. rewrite app_nil_r. intros [= <- _]. reflexivity.
  - destruct (negb (Qle_bool (sum_magnitude cabs sp) (1 # 1000))); [discriminate|].
    unfold ctr_of at 1. rewrite length_map.
    change (2 <? length sp)%nat with (kept sp). cbn [List.filter].
    destruct (kept sp).
    + intros H. apply IH in H. rewrite H, <- app_assoc. reflexivity.
    + unfold mbind, logged_bind, warning.
      destruct (contours_loop cabs scale sub_paths out) as [[c|e] l] eqn:E;
        [|discriminate].
      intros [= <- _]. exact (IH _ _ _ E).
Qed.


(** The splitting keeps every segment, in order. *)
Lemma sub_paths_step_concat acc i :
  split_inv acc ->
  concat (fst (sub_paths_step acc i)) = concat (fst acc) ++ [i].
Proof.
  destruct acc as [sub_paths last_end]. intros [_ Hlast]. cbn [fst snd] in *.
  unfold sub_paths_step.
  destruct (ne_last_end (start i) last_end) eqn:Hne.
  - rewrite (alter_last (fun sp => sp ++ [i]) sub_paths []). cbn [fst].
    rewrite concat_app. cbn. reflexivity.
  - destruct last_end as [e|]; [|discriminate].
    destruct Hlast as (sps & sp & a & -> & _).
    rewrite alter_last. cbn [fst].
    rewrite !concat_app. cbn. rewrite !app_nil_r, app_assoc. reflexivity.
Qed.

Lemma fold_sub_paths_concat path acc :
  split_inv acc ->
  concat (fst (fold_left sub_paths_step path acc)) = concat (fst acc) ++ path.
Proof.
  revert acc. induction path as [|i path IH]; cbn [fold_left]; intros acc H.
  - rewrite app_nil_r. reflexivity.
  - rewrite IH by (apply sub_paths_step_inv, H).
    rewrite sub_paths_step_concat by exact H.
    rewrite <- app_assoc. reflexivity.
Qed.

Lemma concat_sub_paths_of path : concat (sub_paths_of path) = path.
Proof.
  unfold sub_paths_of.
  rewrite (fold_sub_paths_concat path ([], None)); [reflexivity|].
  split; cbn; [constructor | reflexivity].
Qed.






(** ** The claims on the path geometry *)






(** ** Facts about the metadata decoder *)

Lemma logged_bind_ok {A B} (m : logged A) (f : A -> logged B) b log :
  m ≫= f = (Ok b, log) ->
  exists a l1 l2, m = (Ok a, l1) /\ f a = (Ok b, l2) /\ log = l1 ++ l2.
Proof.
  unfold mbind, logged_bind. destruct m as [[a|e] l1]; [|discriminate].
  destruct (f a) as [r l2] eqn:E. intros [= -> <-].
  exists a, l1, l2. repeat split. exact E.
Qed.

Lemma eval_metadata_scale literal_eval scale str st log :
  eval_metadata literal_eval scale str = (Ok st, log) -> _scale_in_svg st = scale.
Proof.
  unfold eval_metadata. intros H.
  apply logged_bind_ok in H. destruct H as (md & l1 & l2 & _ & H & _).
  apply logged_bind_ok in H. destruct H as (mk & l3 & l4 & _ & H & _).
  apply logged_bind_ok in H. destruct H as (u & l5 & l6 & _ & H & _).
  injection H as <- _. reflexivity.
Qed.

Lemma no_metadata_eq scale :
  no_metadata scale
  = (Ok (mk_svg_state scale (PyDict [])), [(WARNING, "No metadata in %s")]).
Proof. reflexivity. Qed.

(** A decoder that returns has read the declared size and the bitmap, and
    has set the scale from them. *)
Lemma parse_metadata_ok literal_eval doc st log :
  _parse_metadata literal_eval doc = (Ok st, log) ->
  exists attrs im_w im_h w h shape,
    images doc = [attrs]
    /\ fst (declared_width attrs) = Ok im_w
    /\ fst (declared_height attrs) = Ok im_h
    /\ Py.int im_w 10 = Ok w
    /\ Py.int im_h 10 = Ok h
    /\ jpg_im_shape doc = Ok shape
    /\ _scale_in_svg st = scale_of (h, w) shape.
Proof.
  unfold _parse_metadata.
  destruct (images doc) as [|attrs [|? ?]] eqn:Hims; cbn [length Nat.eqb negb nth];
    try discriminate.
  intros H.
  apply logged_bind_ok in H. destruct H as (im_w & l1 & l2 & Hw & H & _).
  apply logged_bind_ok in H. destruct H as (im_h & l3 & l4 & Hh & H & _).
  apply logged_bind_ok in H. destruct H as (h & l5 & l6 & Hih & H & _).
  apply logged_bind_ok in H. destruct H as (w & l7 & l8 & Hiw & H & _).
  apply logged_bind_ok in H. destruct H as (shape & l9 & l10 & Hs & H & _).
  exists attrs, im_w, im_h, w, h, shape.
  rewrite Hw, Hh. unfold lift in Hih, Hiw, Hs.
  injection Hih as -> _. injection Hiw as -> _. injection Hs as -> _.
  repeat (split; [reflexivity|]).
  unfold select_metadata in H.
  destruct (attrs !! "desc") as [str|].
  - destruct (String.eqb str ""); [discriminate|].
    exact (eval_metadata_scale _ _ _ _ _ H).
  - apply logged_bind_ok in H. destruct H as (u & l11 & l12 & _ & H & _).
    destruct (negb (length (stickies doc) =? 1)%nat).
    + rewrite no_metadata_eq in H. injection H as <- _. reflexivity.
    + destruct (nth 0 (stickies doc) ∅ !! "metadata") as [str|].
      * exact (eval_metadata_scale _ _ _ _ _ H).
      * rewrite no_metadata_eq in H. injection H as <- _. reflexivity.
Qed.



(** ** The claim on the scale *)



(** ** The claims on the metadata decoder *)

Lemma declared_width_log attrs : snd (declared_width attrs) = [].
Proof.
  unfold declared_width.
  destruct (attrib_in "w" attrs); [reflexivity|].
  destruct (attrib_in "width" attrs); reflexivity.
Qed.

Lemma declared_height_log attrs : snd (declared_height attrs) = [].
Proof.
  unfold declared_height.
  destruct (attrib_in "h" attrs); [reflexivity|].
  destruct (attrib_in "width" attrs); reflexivity.
Qed.

Lemma parse_metadata_sized literal_eval doc attrs scale :
  sized doc attrs scale ->
  _parse_metadata literal_eval doc = select_metadata literal_eval doc attrs scale.
Proof.
  intros (im_w & im_h & w & h & shape & Hi & Hw & Hh & Hiw & Hih & Hs & ->).
  unfold _parse_metadata. rewrite Hi. cbn [length Nat.eqb negb nth].
  pose proof (declared_width_log attrs) as Lw.
  pose proof (declared_height_log attrs) as Lh.
  destruct (declared_width attrs) as [rw lw]. cbn in Hw, Lw. subst rw lw.
  destruct (declared_height attrs) as [rh lh]. cbn in Hh, Lh. subst rh lh.
  unfold mbind at 1. unfold logged_bind at 1.
  unfold mbind at 1. unfold logged_bind at 1.
  rewrite Hih, Hiw, Hs. unfold lift.
  unfold mbind at 1. unfold logged_bind at 1.
  unfold mbind at 1. unfold logged_bind at 1.
  unfold mbind at 1. unfold logged_bind at 1.
  fold (select_metadata literal_eval doc attrs (scale_of (h, w) shape)).
  destruct (select_metadata literal_eval doc attrs (scale_of (h, w) shape)).
  reflexivity.
Qed.

Lemma attrib_in_true k attrs : attrib_in k attrs = true <-> is_Some (attrs !! k).
Proof. unfold attrib_in. apply bool_decide_eq_true. Qed.

Lemma attrib_in_false k attrs : attrib_in k attrs = false <-> attrs !! k = None.
Proof.
  unfold attrib_in. rewrite bool_decide_eq_false, eq_None_not_Some. reflexivity.
Qed.

Lemma sized_example desc :
  sized (mk_document
           [ <["desc" := desc]>
               {[ "width" := "10"; "height" := "10";
                  href := "data:image/jpeg;base64,AAAA" ]} ]
           [] [] (Ok (10, 10)))
        (<["desc" := desc]>
           {[ "width" := "10"; "height" := "10";
              href := "data:image/jpeg;base64,AAAA" ]})
        ((10 # 10)%Q, (10 # 10)%Q).
Proof.
  exists "10", "10", 10, 10, (10, 10).
  repeat split; vm_compute; reflexivity.
Qed.

Lemma sized_legacy :
  sized doc_legacy
        {[ "width" := "10"; "height" := "10";
           href := "data:image/jpeg;base64,AAAA" ]}
        ((10 # 10)%Q, (10 # 10)%Q).
Proof.
  exists "10", "10", 10, 10, (10, 10).
  repeat split; vm_compute; reflexivity.
Qed.

(** C6, as the specification states it, fails: an empty description makes
    the decoder raise. *)
Lemma parse_metadata_empty_desc_raises :
  images doc_empty_desc
  = [ {[ "desc" := ""; "width" := "10"; "height" := "10";
         href := "data:image/jpeg;base64,AAAA" ]} ]
  /\ _parse_metadata Literal.literal_eval doc_empty_desc
     = (Raise (Exception "Empty desc field"), []).
Proof. split; vm_compute; reflexivity. Qed.

(** C6, amended: for a document whose raster element has no description
    attribute, the decoder warns and takes the literal from the metadata
    attribute of the single legacy element, which it then evaluates as it
    would a description; when there is no single legacy element with that
    attribute the metadata is the empty map, with a second warning and no
    exception. A description attribute that is present and empty makes the
    decoder raise [Exception('Empty desc field')]. *)
Theorem parse_metadata_without_desc
        (literal_eval : string -> result pyval) (doc : document)
        (attrs : gmap string string) (scale : Q * Q) :
  sized doc attrs scale ->
  (attrs !! "desc" = None ->
   (forall sticky str,
       stickies doc = [sticky] -> sticky !! "metadata" = Some str ->
       _parse_metadata literal_eval doc
       = (fst (eval_metadata literal_eval scale str),
          desc_warning :: snd (eval_metadata literal_eval scale str)))
   /\ ((forall sticky, stickies doc = [sticky] -> sticky !! "metadata" = None) ->
       _parse_metadata literal_eval doc
       = (Ok (mk_svg_state scale (PyDict [])),
          [desc_warning; no_metadata_warning])))
  /\ (attrs !! "desc" = Some EmptyString ->
      _parse_metadata literal_eval doc = (Raise (Exception "Empty desc field"), [])).
Proof.
  intros Hs. rewrite (parse_metadata_sized literal_eval doc attrs scale Hs).
  unfold select_metadata. split.
  - intros ->. split.
    + intros sticky str -> Hm. cbn [length Nat.eqb negb nth]. rewrite Hm.
      unfold mbind, logged_bind, warning.
      destruct (eval_metadata literal_eval scale str). reflexivity.
    + intros Hno. destruct (stickies doc) as [|sticky [|? ?]]; try reflexivity.
      cbn [length Nat.eqb negb nth]. rewrite (Hno sticky eq_refl). reflexivity.
  - intros ->. reflexivity.
Qed.

Lemma parse_metadata_without_desc_witness :
  _parse_metadata Literal.literal_eval doc_legacy
  = (Ok (mk_svg_state ((10 # 10)%Q, (10 # 10)%Q) (PyDict [])),
     [desc_warning; no_metadata_warning]).
Proof.
  refine (proj2 (proj1 (parse_metadata_without_desc Literal.literal_eval
                          doc_legacy _ _ sized_legacy) _) _).
  - vm_compute; reflexivity.
  - intros sticky H. discriminate H.
Defined.

(** C8: a raster element that declares a width under [width] and no
    height, under [h] or [height], makes the decoder raise the
    [KeyError] of the lookup of [height], not the exception that reports
    the missing height. *)
Theorem parse_metadata_missing_height
        (literal_eval : string -> result pyval) (doc : document)
        (attrs : gmap string string) :
  images doc = [attrs] ->
  is_Some (attrs !! "width") ->
  attrs !! "h" = None ->
  attrs !! "height" = None ->
  _parse_metadata literal_eval doc = (Raise (KeyError "height"), []).
Proof.
  intros Hi Hw Hh Hheight. unfold _parse_metadata. rewrite Hi.
  cbn [length Nat.eqb negb nth].
  assert (Hdw : exists im_w, declared_width attrs = (Ok im_w, [])).
  { unfold declared_width, attrib_get, lift.
    destruct (attrib_in "w" attrs) eqn:E.
    - apply attrib_in_true in E. destruct E as [v ->]. eauto.
    - apply attrib_in_true in Hw as E'. rewrite E'.
      destruct Hw as [v ->]. eauto. }
  destruct Hdw as [im_w ->].
  assert (Hdh : declared_height attrs = (Raise (KeyError "height"), [])).
  { unfold declared_height, attrib_get, lift.
    apply attrib_in_false in Hh as ->. apply attrib_in_true in Hw as ->.
    rewrite Hheight. reflexivity. }
  unfold mbind at 1. unfold logged_bind at 1.
  rewrite Hdh. reflexivity.
Qed.

Lemma parse_metadata_missing_height_witness :
  _parse_metadata Literal.literal_eval doc_no_height
  = (Raise (KeyError "height"), []).
Proof.
  refine (parse_metadata_missing_height Literal.literal_eval doc_no_height
            _ eq_refl _ _ _).
  - exists "10". vm_compute; reflexivity.
  - vm_compute; reflexivity.
  - vm_compute; reflexivity.
Defined.

(** The sibling check, of the width, reports the missing dimension. *)
Lemma parse_metadata_missing_width literal_eval doc attrs :
  images doc = [attrs] ->
  attrs !! "w" = None ->
  attrs !! "width" = None ->
  _parse_metadata literal_eval doc
  = (Raise (Exception "Embedded image %s does not have width"), []).
Proof.
  intros Hi Hw Hwidth. unfold _parse_metadata. rewrite Hi.
  cbn [length Nat.eqb negb nth]. unfold declared_width.
  apply attrib_in_false in Hw as ->. apply attrib_in_false in Hwidth as ->.
  reflexivity.
Qed.

(** The same test hides a height that is declared: with [w] and [height]
    and neither [width] nor [h], the decoder reports a missing height. *)
Lemma parse_metadata_height_not_seen literal_eval doc attrs :
  images doc = [attrs] ->
  is_Some (attrs !! "w") ->
  attrs !! "width" = None ->
  attrs !! "h" = None ->
  is_Some (attrs !! "height") ->
  _parse_metadata literal_eval doc
  = (Raise (Exception "Embedded image %s does not have height"), []).
Proof.
  intros Hi Hw Hwidth Hh Hheight. unfold _parse_metadata. rewrite Hi.
  cbn [length Nat.eqb negb nth]. unfold declared_width, declared_height.
  apply attrib_in_true in Hw as E. rewrite E.
  apply attrib_in_false in Hh as ->. apply attrib_in_false in Hwidth as ->.
  unfold attrib_get. destruct Hw as [v ->]. reflexivity.
Qed.

(** C10: when the literal the decoder selects, from the description or
    from the legacy element, evaluates to a map, the decoder looks up its
    [Make]: without the key it raises [KeyError], with it it returns the
    map as the metadata. *)
Theorem parse_metadata_requires_Make
        (literal_eval : string -> result pyval) (doc : document)
        (attrs : gmap string string) (scale : Q * Q) (str : string)
        (items : list (pyval * pyval)) :
  sized doc attrs scale ->
  (attrs !! "desc" = Some str /\ str <> EmptyString
   \/ attrs !! "desc" = None
      /\ exists sticky, stickies doc = [sticky] /\ sticky !! "metadata" = Some str) ->
  literal_eval str = Ok (PyDict items) ->
  (dict_get items "Make" = None ->
   fst (_parse_metadata literal_eval doc) = Raise (KeyError "Make"))
  /\ (forall make,
         dict_get items "Make" = Some make ->
         exists log,
           _parse_metadata literal_eval doc
           = (Ok (mk_svg_state scale (PyDict items)), log)).
Proof.
  intros Hs Hsel Hle.
  rewrite (parse_metadata_sized literal_eval doc attrs scale Hs).
  assert (Hsm : fst (select_metadata literal_eval doc attrs scale)
                = fst (eval_metadata literal_eval scale str)
                /\ exists l, snd (select_metadata literal_eval doc attrs scale)
                             = l ++ snd (eval_metadata literal_eval scale str)).
  { unfold select_metadata.
    destruct Hsel as [[-> Hne] | [-> (sticky & -> & Hm)]].
    - apply String.eqb_neq in Hne. rewrite Hne. split; [reflexivity|].
      exists []. reflexivity.
    - cbn [length Nat.eqb negb nth]. rewrite Hm.
      unfold mbind, logged_bind, warning.
      destruct (eval_metadata literal_eval scale str). cbn.
      split; [reflexivity|]. exists [desc_warning]. reflexivity. }
  destruct Hsm as [Hfst [l Hsnd]].
  split.
  - intros Hnone. rewrite Hfst. unfold eval_metadata. rewrite Hle.
    cbn. rewrite Hnone. reflexivity.
  - intros make Hsome.
    destruct (select_metadata literal_eval doc attrs scale) as [r lg].
    cbn [fst snd] in *. subst r lg. eexists. f_equal.
    unfold eval_metadata. rewrite Hle. cbn. rewrite Hsome.
    destruct (isinstance_dict make); reflexivity.
Qed.

Lemma parse_metadata_requires_Make_witness :
  fst (_parse_metadata Literal.literal_eval doc_no_make) = Raise (KeyError "Make").
Proof.
  refine (proj1 (parse_metadata_requires_Make Literal.literal_eval doc_no_make
                   _ _ "{'md5': 'abc'}" [(PyStr "md5", PyStr "abc")]
                   (sized_example "{'md5': 'abc'}") _ _) _).
  - left. split; [vm_compute; reflexivity | discriminate].
  - vm_compute; reflexivity.
  - vm_compute; reflexivity.
Defined.

(** ** Facts about the writers *)

Lemma append_assoc (a b c : string) : (a +:+ b) +:+ c = a +:+ (b +:+ c).
Proof.
  induction a as [|x a IH]; [reflexivity|].
  change (String x ((a +:+ b) +:+ c) = String x (a +:+ (b +:+ c))).
  f_equal. exact IH.
Qed.

Lemma append_nil_r (a : string) : a +:+ EmptyString = a.
Proof.
  induction a as [|x a IH]; [reflexivity|].
  change (String x (a +:+ EmptyString) = String x a).
  f_equal. exact IH.
Qed.

Section WriterFacts.

Variable can_write : string -> bool.
Variable svg2png : string -> Q -> result string.
Variable alpha_composite : image -> string -> result string.

Lemma write_insert path text content (fs : gmap string string) :
  write path text (<[path := content]> fs)
  = (Ok tt, <[path := content +:+ text]> fs).
Proof. unfold write. rewrite alter_insert_eq. reflexivity. Qed.

(** Writing the annotations appends their elements to the file, up to the
    first that raises. *)
Lemma write_annotations_insert path elements content (fs : gmap string string) :
  exists content',
    write_annotations path elements (<[path := content]> fs)
    = (match elements_text elements with Ok _ => Ok tt | Raise e => Raise e end,
       <[path := content']> fs)
    /\ forall text, elements_text elements = Ok text -> content' = content +:+ text.
Proof.
  revert content. induction elements as [|a rest IH]; intros content.
  - exists content. cbn. split; [reflexivity|].
    intros text [= <-]. rewrite append_nil_r. reflexivity.
  - destruct a as [element|e].
    + destruct (IH (content +:+ element)) as (content' & Hrun & Htext).
      exists content'. cbn [write_annotations elements_text bind_result].
      unfold mbind, fs_bind, fs_lift. rewrite write_insert.
      fold (write_annotations path rest). rewrite Hrun.
      destruct (elements_text rest) as [text|e]; cbn [bind_result].
      * split; [reflexivity|]. intros t [= <-].
        rewrite (Htext text eq_refl), append_assoc. reflexivity.
      * split; [reflexivity|]. discriminate.
    + exists content. cbn. split; [reflexivity|]. discriminate.
Qed.

(** A failure before the temporary file is opened: the handler removes a
    file that is not there, and its [FileNotFoundError] is what the caller
    gets. *)
Lemma to_svg_not_prepared self tmp_svg target embed_jpeg include_metadata
      (fs : gmap string string) e :
  fs !! tmp_svg = None ->
  prepared self include_metadata = Raise e ->
  to_svg can_write self tmp_svg target embed_jpeg include_metadata fs
  = (Raise (FileNotFoundError tmp_svg), fs).
Proof.
  intros Hfresh Hprep. unfold to_svg, try_except, prepared in *.
  unfold mbind, fs_bind, fs_lift, os_remove.
  destruct (read self) as [[height width]|e1]; cbn [bind_result] in *.
  2: { rewrite Hfresh. reflexivity. }
  destruct include_metadata.
  - destruct (metadata self) as [meta|e2]; cbn [bind_result] in *.
    2: { rewrite Hfresh. reflexivity. }
    unfold mret, fs_ret.
    destruct (_img_buffer self) as [enc|e3]; cbn [bind_result] in *;
      [discriminate|].
    rewrite Hfresh. reflexivity.
  - unfold mret, fs_ret.
    destruct (_img_buffer self) as [enc|e3]; cbn [bind_result] in *;
      [discriminate|].
    rewrite Hfresh. reflexivity.
Qed.

(** The same when the temporary file cannot be opened. *)
Lemma to_svg_not_opened self tmp_svg target embed_jpeg include_metadata
      (fs : gmap string string) x :
  fs !! tmp_svg = None ->
  prepared self include_metadata = Ok x ->
  can_write tmp_svg = false ->
  to_svg can_write self tmp_svg target embed_jpeg include_metadata fs
  = (Raise (FileNotFoundError tmp_svg), fs).
Proof.
  intros Hfresh Hprep Hcw. unfold to_svg, try_except, prepared in *.
  unfold mbind, fs_bind, fs_lift, os_remove, open_w.
  destruct (read self) as [[height width]|e1]; cbn [bind_result] in *;
    [|discriminate].
  destruct include_metadata.
  - destruct (metadata self) as [meta|e2]; cbn [bind_result] in *;
      [|discriminate].
    unfold mret, fs_ret.
    destruct (_img_buffer self) as [enc|e3]; cbn [bind_result] in *;
      [|discriminate].
    rewrite Hcw, Hfresh. reflexivity.
  - unfold mret, fs_ret.
    destruct (_img_buffer self) as [enc|e3]; cbn [bind_result] in *;
      [|discriminate].
    rewrite Hcw, Hfresh. reflexivity.
Qed.

Lemma prepared_ok self include_metadata height width desc encoded_string :
  prepared self include_metadata = Ok (height, width, desc, encoded_string) ->
  read self = Ok (height, width)
  /\ (if include_metadata then
        exists meta, metadata self = Ok meta
                     /\ desc = "desc=" +:+ Py.dquote +:+ str meta +:+ Py.dquote
      else desc = EmptyString)
  /\ _img_buffer self = Ok encoded_string.
Proof.
  unfold prepared.
  destruct (read self) as [[h w]|e1]; cbn [bind_result]; [|discriminate].
  destruct include_metadata.
  - destruct (metadata self) as [meta|e2]; cbn [bind_result]; [|discriminate].
    destruct (_img_buffer self) as [enc|e3]; cbn [bind_result]; [|discriminate].
    intros [= -> -> <- ->]. eauto.
  - destruct (_img_buffer self) as [enc|e3]; cbn [bind_result]; [|discriminate].
    intros [= -> -> <- ->]. eauto.
Qed.

(** Once the temporary file is open, a failure removes it and the caller
    gets the exception of the failure; a success moves it to the target. *)
Lemma to_svg_opened self tmp_svg target embed_jpeg include_metadata
      (fs : gmap string string) height width desc encoded_string :
  fs !! tmp_svg = None ->
  prepared self include_metadata = Ok (height, width, desc, encoded_string) ->
  can_write tmp_svg = true ->
  to_svg can_write self tmp_svg target embed_jpeg include_metadata fs
  = match elements_text (svg_elements self) with
    | Raise e => (Raise e, fs)
    | Ok annotations =>
        if can_write target then
          (Ok tt,
           <[target := svg_header width height
                       +:+ (if embed_jpeg then
                              image_element desc width height encoded_string
                            else EmptyString)
                       +:+ annotations +:+ "</svg>"]> fs)
        else (Raise (OSError target), fs)
    end.
Proof.
  intros Hfresh Hprep Hcw.
  apply prepared_ok in Hprep. destruct Hprep as (Hread & Hdesc & Hbuf).
  unfold to_svg, try_except.
  assert (Hhandler : forall e content,
             (os_remove tmp_svg;; (fs_lift (Raise e) : fs_m unit))
               (<[tmp_svg := content]> fs) = (Raise e, fs)).
  { intros e content. unfold mbind, fs_bind, os_remove, fs_lift.
    rewrite lookup_insert_eq, delete_insert_id by exact Hfresh. reflexivity. }
  unfold mbind at 1. unfold fs_bind at 1. unfold fs_lift at 1. rewrite Hread.
  assert (Hd : (if include_metadata
                then metadata_text ← fs_lift (metadata self);
                     mret ("desc=" +:+ Py.dquote +:+ str metadata_text +:+ Py.dquote)
                else mret EmptyString) fs = (Ok desc, fs)).
  { destruct include_metadata.
    - destruct Hdesc as (meta & Hm & ->). unfold mbind, fs_bind, fs_lift.
      rewrite Hm. reflexivity.
    - subst desc. reflexivity. }
  unfold mbind at 1. unfold fs_bind at 1. rewrite Hd.
  unfold mbind at 1. unfold fs_bind at 1. unfold fs_lift at 1. rewrite Hbuf.
  unfold mbind at 1. unfold fs_bind at 1. unfold open_w at 1. rewrite Hcw.
  unfold mbind at 1. unfold fs_bind at 1. rewrite write_insert.
  change (EmptyString +:+ svg_header width height) with (svg_header width height).
  unfold mbind at 1. unfold fs_bind at 1.
  assert (Himg : (if embed_jpeg
                  then write tmp_svg (image_element desc width height encoded_string)
                  else mret tt) (<[tmp_svg := svg_header width height]> fs)
                 = (Ok tt,
                    <[tmp_svg := svg_header width height
                                 +:+ (if embed_jpeg then
                                        image_element desc width height encoded_string
                                      else EmptyString)]> fs)).
  { destruct embed_jpeg.
    - apply write_insert.
    - rewrite append_nil_r. reflexivity. }
  rewrite Himg.
  unfold mbind at 1. unfold fs_bind at 1.
  match goal with
  | |- context [write_annotations tmp_svg ?els (<[tmp_svg := ?c]> fs)] =>
      destruct (write_annotations_insert tmp_svg els c fs)
        as (content' & -> & Htext)
  end.
  destruct (elements_text (svg_elements self)) as [annotations|e].
  - unfold mbind at 1. unfold fs_bind at 1. rewrite write_insert.
    unfold shutil_move. rewrite lookup_insert_eq.
    destruct (can_write target).
    + rewrite delete_insert_id by exact Hfresh.
      rewrite (Htext annotations eq_refl), !append_assoc. reflexivity.
    + apply Hhandler.
  - apply Hhandler.
Qed.

Lemma document_text_ok self embed_jpeg include_metadata text :
  document_text self embed_jpeg include_metadata = Ok text ->
  exists height width desc encoded_string annotations,
    prepared self include_metadata = Ok (height, width, desc, encoded_string)
    /\ elements_text (svg_elements self) = Ok annotations
    /\ text = svg_header width height
              +:+ (if embed_jpeg then
                     image_element desc width height encoded_string
                   else EmptyString)
              +:+ annotations +:+ "</svg>".
Proof.
  unfold document_text.
  destruct (prepared self include_metadata) as [[[[h w] desc] enc]|e];
    cbn [bind_result]; [|discriminate].
  destruct (elements_text (svg_elements self)) as [ann|e];
    cbn [bind_result]; [|discriminate].
  intros [= <-]. exists h, w, desc, enc, ann. repeat split.
Qed.

(** [to_png] once the overlay is written and rasterized: the temporary
    document is removed on every path; the temporary raster is moved on
    success and stays where a later step fails. *)
Lemma to_png_rasterized self tmp_png tmp_svg tmp_svg' target scale
      (fs : gmap string string) text raster :
  fs !! tmp_png = None -> fs !! tmp_svg = None -> fs !! tmp_svg' = None ->
  tmp_png <> tmp_svg -> target <> tmp_svg ->
  can_write tmp_png = true -> can_write tmp_svg = true ->
  can_write tmp_svg' = true ->
  document_text self false false = Ok text ->
  svg2png text scale = Ok raster ->
  to_png can_write svg2png alpha_composite self tmp_png tmp_svg tmp_svg' target
         scale fs
  = match alpha_composite self raster with
    | Raise e => (Raise e, <[tmp_png := raster]> fs)
    | Ok composite =>
        if can_write target then (Ok tt, <[target := composite]> fs)
        else (Raise (OSError target), <[tmp_png := composite]> fs)
    end.
Proof.
  intros Hpng Hsvg Hsvg' Hne Hnt Cpng Csvg Csvg' Htext Hraster.
  apply document_text_ok in Htext.
  destruct Htext as (h & w & desc & enc & ann & Hprep & Hann & Htext).
  unfold to_png, try_finally.
  unfold mbind at 1. unfold fs_bind at 1.
  rewrite (to_svg_opened self tmp_svg' tmp_svg false false fs h w desc enc
             Hsvg' Hprep Csvg').
  rewrite Hann, Csvg, <- Htext.
  unfold mbind at 1. unfold fs_bind at 1. unfold read_file at 1.
  rewrite lookup_insert_eq.
  unfold mbind at 1. unfold fs_bind at 1. unfold fs_lift at 1. rewrite Hraster.
  unfold mbind at 1. unfold fs_bind at 1. unfold open_w at 1. rewrite Cpng.
  unfold mbind at 1. unfold fs_bind at 1. rewrite write_insert.
  change (EmptyString +:+ raster) with raster.
  unfold mbind at 1. unfold fs_bind at 1. unfold read_file at 1.
  rewrite lookup_insert_eq.
  unfold mbind at 1. unfold fs_bind at 1. unfold fs_lift at 1.
  assert (Hrm : forall content,
             delete tmp_svg (<[tmp_png := content]> (<[tmp_svg := text]> fs))
             = <[tmp_png := content]> fs).
  { intros content. rewrite delete_insert_ne by congruence.
    rewrite delete_insert_id by exact Hsvg. reflexivity. }
  assert (Hlk : forall content,
             <[tmp_png := content]> (<[tmp_svg := text]> fs) !! tmp_svg
             = Some text).
  { intros content. rewrite lookup_insert_ne by exact Hne.
    apply lookup_insert_eq. }
  destruct (alpha_composite self raster) as [composite|e].
  - unfold mbind at 1. unfold fs_bind at 1. unfold open_w at 1. rewrite Cpng.
    rewrite insert_insert_eq.
    unfold mbind at 1. unfold fs_bind at 1. rewrite write_insert.
    change (EmptyString +:+ composite) with composite.
    unfold shutil_move. rewrite lookup_insert_eq.
    destruct (can_write target).
    + rewrite delete_insert_id
        by (rewrite lookup_insert_ne by congruence; exact Hpng).
      unfold os_remove. rewrite lookup_insert_ne by exact Hnt.
      rewrite lookup_insert_eq.
      rewrite delete_insert_ne by congruence.
      rewrite delete_insert_id by exact Hsvg. reflexivity.
    + unfold os_remove. rewrite Hlk, Hrm. reflexivity.
  - unfold os_remove. rewrite Hlk, Hrm. reflexivity.
Qed.

(** When the overlay cannot be written, the cleanup of [to_png] removes a
    file that is not there. *)
Lemma to_png_not_prepared self tmp_png tmp_svg tmp_svg' target scale
      (fs : gmap string string) e :
  fs !! tmp_svg = None -> fs !! tmp_svg' = None ->
  prepared self false = Raise e ->
  to_png can_write svg2png alpha_composite self tmp_png tmp_svg tmp_svg' target
         scale fs
  = (Raise (FileNotFoundError tmp_svg), fs).
Proof.
  intros Hsvg Hsvg' Hprep. unfold to_png, try_finally.
  unfold mbind at 1. unfold fs_bind at 1.
  rewrite (to_svg_not_prepared self tmp_svg' tmp_svg false false fs e Hsvg' Hprep).
  unfold os_remove. rewrite Hsvg. reflexivity.
Qed.

End WriterFacts.

(** ** The claims on the writers *)

(** C5: when the construction of the document fails with [e], [to_svg]
    leaves the files as they were, the target untouched and no temporary
    file. The caller gets [e] when the failure comes after the temporary
    file was opened; when it comes before (the bitmap, the metadata or
    the encoded payload cannot be had) the handler removes a file that
    does not exist and the caller gets its [FileNotFoundError]. *)
Theorem to_svg_failure
        (can_write : string -> bool) (self : image) (tmp_svg target : string)
        (embed_jpeg include_metadata : bool) (fs : gmap string string)
        (e : exn) :
  fs !! tmp_svg = None ->
  can_write tmp_svg = true ->
  document_text self embed_jpeg include_metadata = Raise e ->
  snd (to_svg can_write self tmp_svg target embed_jpeg include_metadata fs) = fs
  /\ (is_ok (prepared self include_metadata) = true ->
      fst (to_svg can_write self tmp_svg target embed_jpeg include_metadata fs)
      = Raise e)
  /\ (is_ok (prepared self include_metadata) = false ->
      fst (to_svg can_write self tmp_svg target embed_jpeg include_metadata fs)
      = Raise (FileNotFoundError tmp_svg)).
Proof.
  intros Hfresh Hcw Htext. unfold document_text in Htext.
  destruct (prepared self include_metadata) as [[[[h w] desc] enc]|e'] eqn:Hprep;
    cbn [bind_result is_ok] in *.
  - rewrite (to_svg_opened can_write self tmp_svg target embed_jpeg
               include_metadata fs h w desc enc Hfresh Hprep Hcw).
    destruct (elements_text (svg_elements self)) as [ann|e'];
      cbn [bind_result] in Htext; [discriminate|].
    injection Htext as ->. cbn [fst snd].
    split; [reflexivity|]. split; [reflexivity | discriminate].
  - rewrite (to_svg_not_prepared can_write self tmp_svg target embed_jpeg
               include_metadata fs e' Hfresh Hprep). cbn [fst snd].
    split; [reflexivity|]. split; [discriminate | reflexivity].
Qed.

Lemma to_svg_failure_witness :
  to_svg (fun _ => true) image_unreadable "/tmp/tmp0.svg"
         "5c173ff2.2020-06-20_21-33-24.svg" true true ∅
  = (Raise (FileNotFoundError "/tmp/tmp0.svg"), ∅).
Proof.
  destruct (to_svg_failure (fun _ => true) image_unreadable "/tmp/tmp0.svg"
              "5c173ff2.2020-06-20_21-33-24.svg" true true ∅
              (Exception "Could not read image file %s")
              (lookup_empty _) eq_refl eq_refl) as (Hfs & _ & Herr).
  specialize (Herr eq_refl).
  destruct (to_svg (fun _ => true) image_unreadable "/tmp/tmp0.svg"
                   "5c173ff2.2020-06-20_21-33-24.svg" true true ∅) as [r fs'].
  cbn [fst snd] in *. rewrite Hfs, Herr. reflexivity.
Defined.

(** C7: when the overlay is written and rasterized and a later step
    fails, the compositing or the move to the target, [to_png] removes its
    temporary document but leaves its temporary raster behind. *)
Theorem to_png_leaves_raster
        (can_write : string -> bool) (svg2png : string -> Q -> result string)
        (alpha_composite : image -> string -> result string)
        (self : image) (tmp_png tmp_svg tmp_svg' target : string) (scale : Q)
        (fs : gmap string string) (text raster : string) :
  fs !! tmp_png = None -> fs !! tmp_svg = None -> fs !! tmp_svg' = None ->
  tmp_png <> tmp_svg -> target <> tmp_svg ->
  can_write tmp_png = true -> can_write tmp_svg = true ->
  can_write tmp_svg' = true ->
  document_text self false false = Ok text ->
  svg2png text scale = Ok raster ->
  let outcome :=
    to_png can_write svg2png alpha_composite self tmp_png tmp_svg tmp_svg'
           target scale fs in
  is_ok (fst outcome) = false ->
  snd outcome !! tmp_svg = None /\ is_Some (snd outcome !! tmp_png).
Proof.
  intros Hpng Hsvg Hsvg' Hne Hnt Cpng Csvg Csvg' Htext Hraster outcome.
  subst outcome.
  rewrite (to_png_rasterized can_write svg2png alpha_composite self tmp_png
             tmp_svg tmp_svg' target scale fs text raster
             Hpng Hsvg Hsvg' Hne Hnt Cpng Csvg Csvg' Htext Hraster).
  destruct (alpha_composite self raster) as [composite|e].
  - destruct (can_write target); cbn [fst snd is_ok]; [discriminate|].
    intros _. split.
    + rewrite lookup_insert_ne by exact Hne. exact Hsvg.
    + rewrite lookup_insert_eq. eauto.
  - cbn [fst snd is_ok]. intros _. split.
    + rewrite lookup_insert_ne by exact Hne. exact Hsvg.
    + rewrite lookup_insert_eq. eauto.
Qed.

Lemma to_png_leaves_raster_witness :
  let outcome :=
    to_png (fun path => negb (String.eqb path "/missing/5c173ff2.2020-06-20_21-33-24.png"))
           (fun _ _ => Ok "PNG") (fun _ _ => Ok "COMPOSITE")
           image_annotated "/tmp/tmp0.png" "/tmp/tmp1.svg" "/tmp/tmp2.svg"
           "/missing/5c173ff2.2020-06-20_21-33-24.png" 1 ∅ in
  fst outcome = Raise (OSError "/missing/5c173ff2.2020-06-20_21-33-24.png")
  /\ snd outcome !! "/tmp/tmp1.svg" = None
  /\ is_Some (snd outcome !! "/tmp/tmp0.png").
Proof.
  intros outcome. split; [vm_compute; reflexivity|].
  refine (to_png_leaves_raster
            (fun path => negb (String.eqb path "/missing/5c173ff2.2020-06-20_21-33-24.png"))
            (fun _ _ => Ok "PNG") (fun _ _ => Ok "COMPOSITE") image_annotated
            "/tmp/tmp0.png" "/tmp/tmp1.svg" "/tmp/tmp2.svg"
            "/missing/5c173ff2.2020-06-20_21-33-24.png" 1 ∅ _ "PNG"
            (lookup_empty _) (lookup_empty _) (lookup_empty _) _ _
            eq_refl eq_refl eq_refl eq_refl eq_refl _);
    try discriminate.
  vm_compute; reflexivity.
Defined.

(** C1: the round trip fails for the empty metadata map. The decoder
    gives a legacy document the metadata [{}]; [to_svg] writes it as the
    description [{}]; decoding what was written raises the [KeyError] of
    [Make]. *)
Theorem round_trip_empty_metadata :
  fst (_parse_metadata Literal.literal_eval doc_legacy)
  = Ok (mk_svg_state ((10 # 10)%Q, (10 # 10)%Q) (PyDict []))
  /\ to_svg (fun _ => true) image_legacy "/tmp/tmp0.svg"
            "5c173ff2.2020-06-20_21-33-24.svg" true true ∅
     = (Ok tt,
        {[ "5c173ff2.2020-06-20_21-33-24.svg"
           := svg_header 10 10
              +:+ image_element ("desc=" +:+ Py.dquote +:+ "{}" +:+ Py.dquote)
                                10 10 "AAAA"
              +:+ "</svg>" ]})
  /\ _parse_metadata Literal.literal_eval doc_rewritten
     = (Raise (KeyError "Make"), []).
Proof. repeat split; vm_compute; reflexivity. Qed.

(** * Further properties *)

(** ** The sub-paths of a path *)

Lemma apart_snoc sps sp1 sp2 :
  apart (sps ++ [sp1]) ->
  (forall a b, last sp1 = Some a -> head sp2 = Some b ->
               ceqb (start b) (end_ a) = false) ->
  apart ((sps ++ [sp1]) ++ [sp2]).
Proof.
  induction sps as [|x sps IH]; cbn.
  - intros _ H. split; [exact H | exact I].
  - destruct sps as [|y sps]; cbn in *.
    + intros [Hx _] H. repeat split; assumption.
    + intros [Hx Hrest] H. split; [exact Hx|]. apply IH; assumption.
Qed.

Lemma apart_alter_last sps sp i :
  sp <> [] -> apart (sps ++ [sp]) -> apart (sps ++ [sp ++ [i]]).
Proof.
  intros Hne. induction sps as [|x sps IH]; cbn.
  - intros _. exact I.
  - destruct sps as [|y sps]; cbn in *.
    + intros [Hx _]. split; [|exact I].
      intros a b Ha Hb. apply Hx; [exact Ha|].
      destruct sp; [contradiction | exact Hb].
    + intros [Hx Hrest]. split; [exact Hx|]. apply IH, Hrest.
Qed.

Lemma sub_paths_step_apart acc i :
  split_inv acc -> apart (fst acc) -> apart (fst (sub_paths_step acc i)).
Proof.
  destruct acc as [sub_paths last_end]. intros [_ Hlast] Hap.
  cbn [fst snd] in *. unfold sub_paths_step.
  destruct (ne_last_end (start i) last_end) eqn:Hne.
  - rewrite (alter_last (fun sp => sp ++ [i]) sub_paths []). cbn [fst app].
    destruct last_end as [e|].
    + destruct Hlast as (sps & sp & a & -> & ->).
      apply apart_snoc; [exact Hap|].
      intros a' b Ha [= <-]. rewrite last_snoc in Ha. injection Ha as <-.
      cbn in Hne. apply negb_true_iff in Hne. exact Hne.
    + subst sub_paths. exact I.
  - destruct last_end as [e|]; [|discriminate].
    destruct Hlast as (sps & sp & a & -> & ->).
    rewrite alter_last. cbn [fst].
    apply apart_alter_last; [|exact Hap].
    destruct sp; discriminate.
Qed.

Lemma fold_sub_paths_apart path acc :
  split_inv acc -> apart (fst acc) ->
  apart (fst (fold_left sub_paths_step path acc)).
Proof.
  revert acc. induction path as [|i path IH]; cbn [fold_left]; intros acc Hi Ha.
  - exact Ha.
  - apply IH; [apply sub_paths_step_inv, Hi | apply sub_paths_step_apart; assumption].
Qed.


Lemma sub_paths_of_apart path : apart (sub_paths_of path).
Proof.
  unfold sub_paths_of.
  apply (fold_sub_paths_apart path ([], None)).
  - split; cbn; [constructor | reflexivity].
  - exact I.
Qed.

(** X1: the loop of lines 469-475 cuts the path into its maximal runs of
    joined segments: the sub-paths, put end to end, are the path; each is
    a non-empty run of segments that start where the previous one ends;
    and two consecutive sub-paths are apart. *)
Theorem sub_paths_of_partition (path : list segment) :
  concat (sub_paths_of path) = path
  /\ Forall (fun sp => sp <> [] /\ joined sp) (sub_paths_of path)
  /\ apart (sub_paths_of path).
Proof.
  split; [apply concat_sub_paths_of|]. split; [apply sub_paths_of_joined|].
  apply sub_paths_of_apart.
Qed.





(** ** What the metadata decoder returns *)

Lemma parse_metadata_ok_select literal_eval doc st log :
  _parse_metadata literal_eval doc = (Ok st, log) ->
  exists attrs scale,
    sized doc attrs scale
    /\ select_metadata literal_eval doc attrs scale = (Ok st, log).
Proof.
  intros H.
  destruct (parse_metadata_ok _ _ _ _ H)
    as (attrs & im_w & im_h & w & h & shape & Hi & Hw & Hh & Hiw & Hih & Hs & _).
  assert (Hsized : sized doc attrs (scale_of (h, w) shape)).
  { exists im_w, im_h, w, h, shape. repeat split; assumption. }
  exists attrs, (scale_of (h, w) shape). split; [exact Hsized|].
  rewrite <- (parse_metadata_sized literal_eval doc attrs _ Hsized). exact H.
Qed.

Lemma eval_metadata_ok literal_eval scale str st log :
  eval_metadata literal_eval scale str = (Ok st, log) ->
  exists items make,
    literal_eval str = Ok (PyDict items)
    /\ dict_get items "Make" = Some make
    /\ st = mk_svg_state scale (PyDict items)
    /\ log = if isinstance_dict make then []
             else [(WARNING, "Missing custom metadata in %s, Make is `%s`")].
Proof.
  unfold eval_metadata.
  destruct (literal_eval str) as [v|e].
  - destruct v as [| | | | |items]; try discriminate.
    cbn. destruct (dict_get items "Make") as [make|] eqn:Hm; [|discriminate].
    cbn. destruct (isinstance_dict make) eqn:E; cbn; intros [= <- <-];
      exists items, make; rewrite E; repeat split; exact Hm.
  - destruct e; discriminate.
Qed.

(** The log of the selection is that of the evaluation, after the warning
    of the missing description when the literal is the legacy one. *)
Lemma select_metadata_eval literal_eval doc attrs scale str :
  (attrs !! "desc" = Some str /\ str <> EmptyString
   \/ attrs !! "desc" = None
      /\ exists sticky, stickies doc = [sticky] /\ sticky !! "metadata" = Some str) ->
  exists l,
    select_metadata literal_eval doc attrs scale
    = (fst (eval_metadata literal_eval scale str),
       l ++ snd (eval_metadata literal_eval scale str)).
Proof.
  unfold select_metadata.
  intros [[-> Hne] | [-> (sticky & -> & Hm)]].
  - apply String.eqb_neq in Hne. rewrite Hne. exists [].
    destruct (eval_metadata literal_eval scale str). reflexivity.
  - cbn [length Nat.eqb negb nth]. rewrite Hm.
    unfold mbind, logged_bind, warning.
    destruct (eval_metadata literal_eval scale str). exists [desc_warning].
    reflexivity.
Qed.

(** X3: the metadata of a decoded document is a map, and either it is the
    empty map of a document without metadata, reported by a warning, or it
    has the key [Make]; a [Make] that is not itself a map is reported by a
    warning and does not fail the decoding. *)
Theorem parse_metadata_postcondition
        (literal_eval : string -> result pyval) (doc : document)
        (st : svg_state) (log : list log_record) :
  _parse_metadata literal_eval doc = (Ok st, log) ->
  (_metadata st = PyDict [] /\ In no_metadata_warning log)
  \/ exists items make,
      _metadata st = PyDict items
      /\ dict_get items "Make" = Some make
      /\ (isinstance_dict make = false ->
          In (WARNING, "Missing custom metadata in %s, Make is `%s`") log).
Proof.
  intros H. apply parse_metadata_ok_select in H.
  destruct H as (attrs & scale & _ & H). unfold select_metadata in H.
  assert (Hev : forall str l,
             eval_metadata literal_eval scale str = (Ok st, l) ->
             exists items make,
               _metadata st = PyDict items
               /\ dict_get items "Make" = Some make
               /\ (isinstance_dict make = false ->
                   In (WARNING, "Missing custom metadata in %s, Make is `%s`") l)).
  { intros str l Hl. apply eval_metadata_ok in Hl.
    destruct Hl as (items & make & _ & Hmake & -> & ->).
    exists items, make. repeat split; [exact Hmake|].
    intros ->. left. reflexivity. }
  destruct (attrs !! "desc") as [str|].
  - destruct (String.eqb str ""); [discriminate|].
    right. exact (Hev _ _ H).
  - apply logged_bind_ok in H. destruct H as (u & l1 & l2 & Hw & H & ->).
    injection Hw as _ <-.
    destruct (negb (length (stickies doc) =? 1)%nat).
    + rewrite no_metadata_eq in H. injection H as <- <-.
      left. split; [reflexivity|]. right. left. reflexivity.
    + destruct (nth 0 (stickies doc) ∅ !! "metadata") as [str|].
      * right. destruct (Hev _ _ H) as (items & make & H1 & H2 & H3).
        exists items, make. repeat split; [exact H1 | exact H2|].
        intros Hd. right. exact (H3 Hd).
      * rewrite no_metadata_eq in H. injection H as <- <-.
        left. split; [reflexivity|]. right. left. reflexivity.
Qed.

Lemma parse_metadata_postcondition_witness :
  PyDict [(PyStr "Make", PyDict [])] = PyDict []
  /\ In no_metadata_warning []
  \/ exists items make,
      PyDict [(PyStr "Make", PyDict [])] = PyDict items
      /\ dict_get items "Make" = Some make
      /\ (isinstance_dict make = false ->
          In (WARNING, "Missing custom metadata in %s, Make is `%s`") []).
Proof.
  refine (parse_metadata_postcondition Literal.literal_eval doc_twice
            (mk_svg_state ((20 # 10)%Q, (20 # 10)%Q)
                          (PyDict [(PyStr "Make", PyDict [])])) [] _).
  vm_compute; reflexivity.
Defined.

(** X4: a metadata literal that does not evaluate to a map makes the
    decoder raise, and what it raises is not an error of the format. When
    [literal_eval] raises [ValueError] the decoder logs it and then fails
    with the [TypeError] of subscripting [None]; any other exception of
    [literal_eval] (a [SyntaxError]) is passed on; a literal of a list, a
    string or a number fails with [TypeError]. *)
Theorem parse_metadata_bad_literal
        (literal_eval : string -> result pyval) (doc : document)
        (attrs : gmap string string) (scale : Q * Q) (str : string) :
  sized doc attrs scale ->
  (attrs !! "desc" = Some str /\ str <> EmptyString
   \/ attrs !! "desc" = None
      /\ exists sticky, stickies doc = [sticky] /\ sticky !! "metadata" = Some str) ->
  (literal_eval str = Raise ValueError ->
   fst (_parse_metadata literal_eval doc) = Raise TypeError
   /\ In (ERROR, "Cannot parse metadata is %s. String was is `%s`")
         (snd (_parse_metadata literal_eval doc)))
  /\ (forall e, literal_eval str = Raise e -> e <> ValueError ->
                fst (_parse_metadata literal_eval doc) = Raise e)
  /\ (forall v, literal_eval str = Ok v -> isinstance_dict v = false ->
                fst (_parse_metadata literal_eval doc) = Raise TypeError).
Proof.
  intros Hs Hsel.
  rewrite (parse_metadata_sized literal_eval doc attrs scale Hs).
  destruct (select_metadata_eval literal_eval doc attrs scale str Hsel) as [l ->].
  cbn [fst snd]. unfold eval_metadata.
  split; [|split].
  - intros ->. cbn. split; [reflexivity|].
    apply in_or_app. right. left. reflexivity.
  - intros e -> Hne. destruct e; try reflexivity. contradiction.
  - intros v -> Hv. destruct v; try reflexivity. discriminate.
Qed.

Lemma parse_metadata_bad_literal_witness :
  fst (_parse_metadata Literal.literal_eval doc_list_literal) = Raise TypeError.
Proof.
  refine (proj2 (proj2 (parse_metadata_bad_literal Literal.literal_eval
                          doc_list_literal _ _ "[1, 2]"
                          (sized_example "[1, 2]") _))
                (PyList [PyInt 1; PyInt 2]) _ eq_refl).
  - left. split; [vm_compute; reflexivity | discriminate].
  - vm_compute; reflexivity.
Defined.

(** ** What the writers leave on disk *)



(** X6: [to_svg] returns when the shape, the metadata (if it is
    included), the encoded bitmap and every annotation are obtained and
    the temporary file and the target can be written: the target then
    holds the header, the raster element (if the bitmap is embedded), the
    elements of the annotations in order and the closing tag, whatever it
    held before. *)
Theorem to_svg_publishes
        (can_write : string -> bool) (self : image) (tmp_svg target : string)
        (embed_jpeg include_metadata : bool) (fs : gmap string string)
        (height width : Z) (desc encoded_string annotations : string) :
  fs !! tmp_svg = None ->
  can_write tmp_svg = true ->
  can_write target = true ->
  prepared self include_metadata = Ok (height, width, desc, encoded_string) ->
  elements_text (svg_elements self) = Ok annotations ->
  to_svg can_write self tmp_svg target embed_jpeg include_metadata fs
  = (Ok tt,
     <[target := svg_header width height
                 +:+ (if embed_jpeg then
                        image_element desc width height encoded_string
                      else EmptyString)
                 +:+ annotations +:+ "</svg>"]> fs).
Proof.
  intros Hfresh Hcw Hct Hprep Hann.
  rewrite (to_svg_opened can_write self tmp_svg target embed_jpeg
             include_metadata fs height width desc encoded_string
             Hfresh Hprep Hcw).
  rewrite Hann, Hct. reflexivity.
Qed.

Lemma to_svg_publishes_witness :
  to_svg (fun _ => true) image_annotated "/tmp/tmp0.svg" "out.svg" false false
         {[ "out.svg" := "old" ]}
  = (Ok tt, {[ "out.svg" := svg_header 1 1 +:+ "<path/>" +:+ "</svg>" ]}).
Proof.
  rewrite (to_svg_publishes (fun _ => true) image_annotated "/tmp/tmp0.svg"
             "out.svg" false false {[ "out.svg" := "old" ]} 1 1 EmptyString
             "AAAA" "<path/>");
    reflexivity.
Defined.

Section PngFacts.

Variable can_write : string -> bool.
Variable svg2png : string -> Q -> result string.
Variable alpha_composite : image -> string -> result string.

(** A failure of the rasterization comes after the temporary document
    exists: the cleanup removes it and the exception is passed on. *)
Lemma to_png_not_rasterized self tmp_png tmp_svg tmp_svg' target scale
      (fs : gmap string string) text e :
  fs !! tmp_svg = None -> fs !! tmp_svg' = None ->
  can_write tmp_svg = true -> can_write tmp_svg' = true ->
  document_text self false false = Ok text ->
  svg2png text scale = Raise e ->
  to_png can_write svg2png alpha_composite self tmp_png tmp_svg tmp_svg' target
         scale fs
  = (Raise e, fs).
Proof.
  intros Hsvg Hsvg' Csvg Csvg' Htext Hraster.
  apply document_text_ok in Htext.
  destruct Htext as (h & w & desc & enc & ann & Hprep & Hann & Htext).
  unfold to_png, try_finally.
  unfold mbind at 1. unfold fs_bind at 1.
  rewrite (to_svg_opened can_write self tmp_svg' tmp_svg false false fs h w desc
             enc Hsvg' Hprep Csvg').
  rewrite Hann, Csvg, <- Htext.
  unfold mbind at 1. unfold fs_bind at 1. unfold read_file at 1.
  rewrite lookup_insert_eq.
  unfold mbind at 1. unfold fs_bind at 1. unfold fs_lift at 1. rewrite Hraster.
  unfold os_remove. rewrite lookup_insert_eq.
  rewrite delete_insert_id by exact Hsvg. reflexivity.
Qed.

(** Any failure in writing the overlay leaves no temporary document, so
    the cleanup fails. *)
Lemma to_png_overlay_failure self tmp_png tmp_svg tmp_svg' target scale
      (fs : gmap string string) e :
  fs !! tmp_svg = None -> fs !! tmp_svg' = None ->
  document_text self false false = Raise e ->
  to_png can_write svg2png alpha_composite self tmp_png tmp_svg tmp_svg' target
         scale fs
  = (Raise (FileNotFoundError tmp_svg), fs).
Proof.
  intros Hsvg Hsvg' Htext.
  destruct (prepared self false) as [[[[h w] desc] enc]|e'] eqn:Hprep.
  2: { exact (to_png_not_prepared can_write svg2png alpha_composite self tmp_png
                tmp_svg tmp_svg' target scale fs e' Hsvg Hsvg' Hprep). }
  unfold to_png, try_finally.
  unfold mbind at 1. unfold fs_bind at 1.
  destruct (can_write tmp_svg') eqn:Hcw.
  - rewrite (to_svg_opened can_write self tmp_svg' tmp_svg false false fs h w
               desc enc Hsvg' Hprep Hcw).
    unfold document_text in Htext. rewrite Hprep in Htext.
    cbn [bind_result] in Htext.
    destruct (elements_text (svg_elements self)) as [ann|e''];
      cbn [bind_result] in Htext; [discriminate|].
    unfold os_remove. rewrite Hsvg. reflexivity.
  - rewrite (to_svg_not_opened can_write self tmp_svg' tmp_svg false false fs _
               Hsvg' Hprep Hcw).
    unfold os_remove. rewrite Hsvg. reflexivity.
Qed.

End PngFacts.

(** X7: when the overlay is written, rasterized and composited and the
    target can be written, [to_png] returns and the only change on disk
    is that the target holds the composite: both temporary files are
    gone. *)
Theorem to_png_publishes
        (can_write : string -> bool) (svg2png : string -> Q -> result string)
        (alpha_composite : image -> string -> result string)
        (self : image) (tmp_png tmp_svg tmp_svg' target : string) (scale : Q)
        (fs : gmap string string) (text raster composite : string) :
  fs !! tmp_png = None -> fs !! tmp_svg = None -> fs !! tmp_svg' = None ->
  tmp_png <> tmp_svg -> target <> tmp_svg ->
  can_write tmp_png = true -> can_write tmp_svg = true ->
  can_write tmp_svg' = true -> can_write target = true ->
  document_text self false false = Ok text ->
  svg2png text scale = Ok raster ->
  alpha_composite self raster = Ok composite ->
  to_png can_write svg2png alpha_composite self tmp_png tmp_svg tmp_svg' target
         scale fs
  = (Ok tt, <[target := composite]> fs).
Proof.
  intros Hpng Hsvg Hsvg' Hne Hnt Cpng Csvg Csvg' Ct Htext Hraster Hcomp.
  rewrite (to_png_rasterized can_write svg2png alpha_composite self tmp_png
             tmp_svg tmp_svg' target scale fs text raster
             Hpng Hsvg Hsvg' Hne Hnt Cpng Csvg Csvg' Htext Hraster).
  rewrite Hcomp, Ct. reflexivity.
Qed.

Lemma to_png_publishes_witness :
  to_png (fun _ => true) (fun _ _ => Ok "PNG") (fun _ _ => Ok "COMPOSITE")
         image_annotated "/tmp/tmp0.png" "/tmp/tmp1.svg" "/tmp/tmp2.svg"
         "out.png" 1 ∅
  = (Ok tt, {[ "out.png" := "COMPOSITE" ]}).
Proof.
  refine (to_png_publishes (fun _ => true) (fun _ _ => Ok "PNG")
            (fun _ _ => Ok "COMPOSITE") image_annotated
            "/tmp/tmp0.png" "/tmp/tmp1.svg" "/tmp/tmp2.svg" "out.png" 1 ∅
            _ "PNG" "COMPOSITE"
            (lookup_empty _) (lookup_empty _) (lookup_empty _) _ _
            eq_refl eq_refl eq_refl eq_refl eq_refl eq_refl eq_refl);
    discriminate.
Defined.

(** X8: [to_png] does not pass on a failure of the overlay. Whatever
    makes the inner [to_svg] raise (the bitmap, the encoded payload, an
    annotation), no temporary document is left for the [finally] block to
    remove, and the caller gets the [FileNotFoundError] of that removal
    in place of the cause; the files are unchanged. A failure of the
    rasterization, which comes after the document exists, is passed on. *)
Theorem to_png_masks_overlay_failure
        (can_write : string -> bool) (svg2png : string -> Q -> result string)
        (alpha_composite : image -> string -> result string)
        (self : image) (tmp_png tmp_svg tmp_svg' target : string) (scale : Q)
        (fs : gmap string string) :
  fs !! tmp_svg = None -> fs !! tmp_svg' = None ->
  (forall e,
      document_text self false false = Raise e ->
      to_png can_write svg2png alpha_composite self tmp_png tmp_svg tmp_svg'
             target scale fs
      = (Raise (FileNotFoundError tmp_svg), fs))
  /\ (forall text e,
         can_write tmp_svg = true -> can_write tmp_svg' = true ->
         document_text self false false = Ok text ->
         svg2png text scale = Raise e ->
         to_png can_write svg2png alpha_composite self tmp_png tmp_svg tmp_svg'
                target scale fs
         = (Raise e, fs)).
Proof.
  intros Hsvg Hsvg'. split.
  - intros e He.
    exact (to_png_overlay_failure can_write svg2png alpha_composite self tmp_png
             tmp_svg tmp_svg' target scale fs e Hsvg Hsvg' He).
  - intros text e Csvg Csvg' Htext Hr.
    exact (to_png_not_rasterized can_write svg2png alpha_composite self tmp_png
             tmp_svg tmp_svg' target scale fs text e Hsvg Hsvg' Csvg Csvg'
             Htext Hr).
Qed.

Lemma to_png_masks_overlay_failure_witness :
  to_png (fun _ => true) (fun _ _ => Ok "PNG") (fun _ _ => Ok "COMPOSITE")
         image_unreadable "/tmp/tmp0.png" "/tmp/tmp1.svg" "/tmp/tmp2.svg"
         "out.png" 1 ∅
  = (Raise (FileNotFoundError "/tmp/tmp1.svg"), ∅).
Proof.
  exact (proj1 (to_png_masks_overlay_failure (fun _ => true) (fun _ _ => Ok "PNG")
                  (fun _ _ => Ok "COMPOSITE") image_unreadable
                  "/tmp/tmp0.png" "/tmp/tmp1.svg" "/tmp/tmp2.svg" "out.png" 1 ∅
                  (lookup_empty _) (lookup_empty _))
               (Exception "Could not read image file %s") eq_refl).
Defined.

(** ** The styles and the annotations *)

Lemma split_nonempty sep s : Py.split sep s <> [].
Proof.
  destruct s as [|c s]; cbn; [discriminate|].
  destruct (Ascii.eqb c sep); [discriminate|].
  destruct (Py.split sep s); discriminate.
Qed.

Lemma free_of_cons c x s :
  free_of c (String x s) = negb (Ascii.eqb x c) && free_of c s.
Proof. reflexivity. Qed.

Lemma free_of_app c a b : free_of c (a +:+ b) = free_of c a && free_of c b.
Proof.
  induction a as [|x a IH]; [reflexivity|].
  change (String x a +:+ b) with (String x (a +:+ b)).
  rewrite !free_of_cons, IH, andb_assoc. reflexivity.
Qed.

Lemma split_free sep s : free_of sep s = true -> Py.split sep s = [s].
Proof.
  induction s as [|x s IH]; [reflexivity|].
  rewrite free_of_cons. intros H. apply andb_true_iff in H. destruct H as [Hx Hs].
  apply negb_true_iff in Hx. cbn [Py.split]. rewrite Hx, (IH Hs). reflexivity.
Qed.

Lemma split_app sep a b :
  free_of sep a = true ->
  Py.split sep (a +:+ String sep b) = a :: Py.split sep b.
Proof.
  induction a as [|x a IH].
  - intros _. cbn [Py.split]. change (EmptyString +:+ String sep b) with (String sep b).
    cbn [Py.split]. rewrite Ascii.eqb_refl. reflexivity.
  - rewrite free_of_cons. intros H. apply andb_true_iff in H. destruct H as [Hx Ha].
    apply negb_true_iff in Hx.
    change (String x a +:+ String sep b) with (String x (a +:+ String sep b)).
    cbn [Py.split]. rewrite Hx, (IH Ha). reflexivity.
Qed.

Lemma split_snoc sep s :
  Py.split sep (s +:+ String sep EmptyString) = Py.split sep s ++ [EmptyString].
Proof.
  induction s as [|x s IH].
  - change (EmptyString +:+ String sep EmptyString) with (String sep EmptyString).
    cbn [Py.split]. rewrite Ascii.eqb_refl. reflexivity.
  - change (String x s +:+ String sep EmptyString)
      with (String x (s +:+ String sep EmptyString)).
    cbn [Py.split]. rewrite IH.
    destruct (Ascii.eqb x sep); [reflexivity|].
    pose proof (split_nonempty sep s) as Hne.
    destruct (Py.split sep s) as [|f fs]; [contradiction|]. reflexivity.
Qed.

Lemma style_fold_raise l e :
  fold_left (fun d s => bind_result d (fun d => style_item d s)) l (Raise e)
  = Raise e.
Proof. induction l as [|s l IH]; cbn; [reflexivity | exact IH]. Qed.

Lemma style_item_raises d s e : style_item d s = Raise e -> e = ValueError.
Proof.
  unfold style_item.
  destruct (Py.split ":" s) as [|k [|v [|? ?]]]; congruence.
Qed.

Lemma style_fold_raises l d e :
  fold_left (fun d s => bind_result d (fun d => style_item d s)) l (Ok d)
  = Raise e ->
  e = ValueError.
Proof.
  revert d. induction l as [|s l IH]; cbn; intros d; [discriminate|].
  destruct (style_item d s) as [d'|e'] eqn:E.
  - apply IH.
  - rewrite style_fold_raise. intros [= <-]. exact (style_item_raises _ _ _ E).
Qed.

Lemma style_item_plain d k v :
  plain k = true -> plain v = true ->
  style_item d (k +:+ ":" +:+ v) = Ok (<[k := v]> d).
Proof.
  unfold plain. intros Hk Hv.
  apply andb_true_iff in Hk. destruct Hk as [_ Hk].
  apply andb_true_iff in Hv. destruct Hv as [_ Hv].
  unfold style_item.
  change (":" +:+ v) with (String ":" v).
  rewrite (split_app ":" k v Hk), (split_free ":" v Hv). reflexivity.
Qed.

Lemma style_item_free k v :
  plain k = true -> plain v = true -> free_of ";" (k +:+ ":" +:+ v) = true.
Proof.
  unfold plain. intros Hk Hv.
  apply andb_true_iff in Hk. destruct Hk as [Hk _].
  apply andb_true_iff in Hv. destruct Hv as [Hv _].
  rewrite !free_of_app, Hk, Hv. reflexivity.
Qed.

Lemma style_fold_text kvs :
  kvs <> [] ->
  Forall (fun kv => plain (fst kv) = true /\ plain (snd kv) = true) kvs ->
  forall d,
    fold_left (fun d s => bind_result d (fun d => style_item d s))
              (Py.split ";" (style_text kvs)) (Ok d)
    = Ok (fold_left (fun d kv => <[fst kv := snd kv]> d) kvs d).
Proof.
  destruct kvs as [|kv kvs]; [contradiction|]. intros _.
  revert kv. induction kvs as [|kv2 kvs IH]; intros [k v] Hall d.
  - apply Forall_cons in Hall. destruct Hall as [[Hk Hv] _]. cbn [fst snd] in *.
    unfold style_text. cbn [map join fst snd].
    rewrite (split_free ";" _ (style_item_free k v Hk Hv)).
    cbn [fold_left bind_result]. rewrite (style_item_plain d k v Hk Hv).
    reflexivity.
  - apply Forall_cons in Hall. destruct Hall as [[Hk Hv] Hall]. cbn [fst snd] in *.
    specialize (IH kv2 Hall).
    unfold style_text in *. cbn [map join fst snd] in *.
    match goal with
    | |- context [Py.split ";" (?a +:+ ";" +:+ ?b)] =>
        change (a +:+ ";" +:+ b) with (a +:+ String ";" b);
        rewrite (split_app ";" a b (style_item_free k v Hk Hv))
    end.
    cbn [fold_left bind_result]. rewrite (style_item_plain d k v Hk Hv).
    apply IH.
Qed.

(** X9: the style of a path. Without a [style] attribute the lookup
    raises [KeyError]; a style that is empty or ends with a semicolon
    raises [ValueError], as its last item has no colon; a style of items
    [key:value] separated by semicolons, keys and values without colon
    and semicolon, gives the map of its items, a later item replacing an
    earlier one of the same key. *)
Theorem style_to_dic_spec (p : gmap string string) :
  (p !! "style" = None -> _style_to_dic p = Raise (KeyError "style"))
  /\ (forall s,
         p !! "style" = Some EmptyString \/ p !! "style" = Some (s +:+ ";") ->
         _style_to_dic p = Raise ValueError)
  /\ (forall kvs,
         kvs <> [] ->
         Forall (fun kv => plain (fst kv) = true /\ plain (snd kv) = true) kvs ->
         p !! "style" = Some (style_text kvs) ->
         _style_to_dic p
         = Ok (fold_left (fun d kv => <[fst kv := snd kv]> d) kvs ∅)).
Proof.
  unfold _style_to_dic, attrib_get. split; [|split].
  - intros ->. reflexivity.
  - intros s [-> | ->]; cbn [bind_result]; [reflexivity|].
    change (s +:+ ";") with (s +:+ String ";" EmptyString).
    rewrite split_snoc, fold_left_app. cbn [fold_left].
    destruct (fold_left _ (Py.split ";" s) (Ok ∅)) as [d|e] eqn:E;
      cbn [bind_result]; [reflexivity|].
    rewrite (style_fold_raises _ _ _ E). reflexivity.
  - intros kvs Hne Hall ->. cbn [bind_result].
    apply style_fold_text; assumption.
Qed.

Lemma style_to_dic_spec_witness :
  _style_to_dic {[ "style" := "fill:none;stroke:#ff0000;" ]} = Raise ValueError
  /\ _style_to_dic {[ "style" := style_text [("fill", "none"); ("stroke", "#ff0000")] ]}
     = Ok (<["stroke" := "#ff0000"]> (<["fill" := "none"]> ∅)).
Proof.
  destruct (style_to_dic_spec {[ "style" := "fill:none;stroke:#ff0000;" ]})
    as (_ & H2 & _).
  destruct (style_to_dic_spec
              {[ "style" := style_text [("fill", "none"); ("stroke", "#ff0000")] ]})
    as (_ & _ & H3).
  split.
  - apply (H2 "fill:none;stroke:#ff0000"). right. reflexivity.
  - apply (H3 [("fill", "none"); ("stroke", "#ff0000")]).
    + discriminate.
    + repeat constructor.
    + reflexivity.
Defined.

Lemma annotate_stroked style contours annotations stroke :
  (contours <> [] -> style !! "stroke" = Some stroke) ->
  annotate style contours annotations
  = Ok (annotations ++ map (fun c => mk_annotation c stroke) contours).
Proof.
  revert annotations. induction contours as [|c rest IH]; intros annotations H.
  - cbn. rewrite app_nil_r. reflexivity.
  - assert (Hs : style !! "stroke" = Some stroke) by (apply H; discriminate).
    cbn [annotate map]. unfold attrib_get. rewrite Hs. cbn [bind_result].
    rewrite IH by (intros _; exact Hs).
    rewrite <- app_assoc. reflexivity.
Qed.

Lemma annotations_loop_compose parse_path cabs scale paths outs :
  Forall2 (fun p o =>
             _style_to_dic p = Ok (outcome_style o)
             /\ _svg_path_to_contour parse_path cabs scale p
                = (Ok (outcome_contours o), outcome_log o)
             /\ (outcome_contours o <> [] ->
                 outcome_style o !! "stroke" = Some (outcome_stroke o)))
          paths outs ->
  forall annotations,
    annotations_loop parse_path cabs scale paths annotations
    = (Ok (annotations ++ flat_map path_annotations outs),
       flat_map outcome_log outs).
Proof.
  induction 1 as [|p o paths outs (Hstyle & Hpath & Hstroke) _ IH];
    intros annotations.
  - cbn. rewrite app_nil_r. reflexivity.
  - cbn [annotations_loop flat_map]. rewrite Hstyle, Hpath.
    unfold lift, mbind, logged_bind. cbn [app].
    rewrite (annotate_stroked _ _ annotations _ Hstroke), IH.
    unfold path_annotations. rewrite <- app_assoc. reflexivity.
Qed.

(** X10: the annotations of a document are those of its paths, in the
    order of the document: when every path has a style, decodes to
    contours and, if it has a contour, has a stroke in its style, the
    decoder returns one annotation per contour, with the stroke of its
    path, and the log is the logs of the paths end to end. *)
Theorem parse_annotations_compose
        (parse_path : string -> result (list segment)) (cabs : Q -> Q -> Q)
        (scale : Q * Q) (doc : document) (outs : list path_outcome) :
  Forall2 (fun p o =>
             _style_to_dic p = Ok (outcome_style o)
             /\ _svg_path_to_contour parse_path cabs scale p
                = (Ok (outcome_contours o), outcome_log o)
             /\ (outcome_contours o <> [] ->
                 outcome_style o !! "stroke" = Some (outcome_stroke o)))
          (paths doc) outs ->
  _parse_annotations parse_path cabs scale doc
  = (Ok (flat_map path_annotations outs), flat_map outcome_log outs).
Proof.
  intros H. unfold _parse_annotations.
  rewrite (annotations_loop_compose parse_path cabs scale _ outs H []).
  reflexivity.
Qed.

Lemma parse_annotations_compose_witness :
  _parse_annotations parse_path_examples cabs_approx (1, 1)%Q doc_two_paths
  = (Ok [mk_annotation [(4, 4); (8, 4); (8, 8)] "#ff0000";
         mk_annotation [(4, 4); (8, 4); (8, 8)] "#ff0000"],
     [short_warning]).
Proof.
  refine (parse_annotations_compose parse_path_examples cabs_approx (1, 1)%Q
            doc_two_paths
            [mk_path_outcome {[ "stroke" := "#ff0000" ]} [[(4, 4); (8, 4); (8, 8)]]
                             [short_warning] "#ff0000";
             mk_path_outcome {[ "stroke" := "#ff0000" ]} [[(4, 4); (8, 4); (8, 8)]]
                             [] "#ff0000"] _).
  repeat constructor; vm_compute; reflexivity.
Defined.

(** X11: the style of a path is read before its data, and its stroke is
    looked up once per contour. So a path whose style cannot be read
    fails the decoding whatever its data; a path without stroke fails
    with [KeyError] when it has a contour, and is passed over when it has
    none. *)
Theorem parse_annotations_stroke
        (parse_path : string -> result (list segment)) (cabs : Q -> Q -> Q)
        (scale : Q * Q) (doc : document) (p : gmap string string)
        (rest : list (gmap string string)) :
  paths doc = p :: rest ->
  (forall e, _style_to_dic p = Raise e ->
             _parse_annotations parse_path cabs scale doc = (Raise e, []))
  /\ (forall style contours log,
         _style_to_dic p = Ok style ->
         style !! "stroke" = None ->
         _svg_path_to_contour parse_path cabs scale p = (Ok contours, log) ->
         (contours <> [] ->
          _parse_annotations parse_path cabs scale doc
          = (Raise (KeyError "stroke"), log))
         /\ (contours = [] ->
             _parse_annotations parse_path cabs scale doc
             = (fst (annotations_loop parse_path cabs scale rest []),
                log ++ snd (annotations_loop parse_path cabs scale rest [])))).
Proof.
  intros Hp. unfold _parse_annotations. rewrite Hp. cbn [annotations_loop].
  split.
  - intros e ->. reflexivity.
  - intros style contours log -> Hnone ->. unfold lift, mbind, logged_bind.
    cbn [app]. split.
    + intros Hne. destruct contours as [|c cs]; [contradiction|].
      cbn [annotate]. unfold attrib_get. rewrite Hnone. cbn [bind_result].
      rewrite app_nil_r. reflexivity.
    + intros ->. cbn [annotate].
      destruct (annotations_loop parse_path cabs scale rest []) as [r l].
      cbn [fst snd]. reflexivity.
Qed.

Lemma parse_annotations_stroke_witness :
  _parse_annotations parse_path_examples cabs_approx (1, 1)%Q
                     (mk_document [] [] [path_triangle_unstroked] (Ok (10, 10)))
  = (Raise (KeyError "stroke"), [])
  /\ _parse_annotations parse_path_examples cabs_approx (1, 1)%Q
                        (mk_document [] [] [path_far_apart_unstroked] (Ok (10, 10)))
     = (Ok [], [short_warning; short_warning]).
Proof.
  split.
  - refine (proj1 (proj2 (parse_annotations_stroke parse_path_examples cabs_approx
                            (1, 1)%Q
                            (mk_document [] [] [path_triangle_unstroked] (Ok (10, 10)))
                            path_triangle_unstroked [] eq_refl)
                         {[ "fill" := "none" ]} [[(4, 4); (8, 4); (8, 8)]] [] _ _ _) _).
    + vm_compute; reflexivity.
    + vm_compute; reflexivity.
    + vm_compute; reflexivity.
    + discriminate.
  - refine (proj2 (proj2 (parse_annotations_stroke parse_path_examples cabs_approx
                            (1, 1)%Q
                            (mk_document [] [] [path_far_apart_unstroked] (Ok (10, 10)))
                            path_far_apart_unstroked [] eq_refl)
                         {[ "fill" := "none" ]} [] [short_warning; short_warning]
                         _ _ _) eq_refl).
    + vm_compute; reflexivity.
    + vm_compute; reflexivity.
    + vm_compute; reflexivity.
Defined.

(** ** The capture time and its text *)

Lemma chars_app a b : Py.chars (a +:+ b) = Py.chars a ++ Py.chars b.
Proof.
  induction a as [|x a IH]; [reflexivity|].
  change (String x a +:+ b) with (String x (a +:+ b)).
  change (x :: Py.chars (a +:+ b) = x :: (Py.chars a ++ Py.chars b)).
  f_equal. exact IH.
Qed.

Lemma four_digit_years_ok : forallb year_text_ok four_digit_years = true.
Proof. vm_compute. reflexivity. Qed.

Lemma year_text_facts y :
  1000 <= y <= 9999 -> year_text_ok y = true.
Proof.
  intros H. pose proof four_digit_years_ok as Hall.
  rewrite forallb_forall in Hall. apply Hall.
  unfold four_digit_years. apply in_map_iff.
  exists (Z.to_nat (y - 1000)). split; [lia|].
  apply in_seq. lia.
Qed.

Lemma d_digit c rest :
  Py.is_digit c = true -> TimeRE.d (c :: rest) = [(String c EmptyString, rest)].
Proof. intros H. unfold TimeRE.d, TimeRE.sat. rewrite H. reflexivity. Qed.

Lemma year_text y :
  1000 <= y <= 9999 ->
  Py.int (Py.of_Z y) 10 = Ok y
  /\ free_of "." (Py.of_Z y) = true
  /\ forall rest, TimeRE.re_Y (Py.chars (Py.of_Z y) ++ rest) = [(Py.of_Z y, rest)].
Proof.
  intros H. pose proof (year_text_facts y H) as Hy. unfold year_text_ok in Hy.
  apply andb_true_iff in Hy. destruct Hy as [Hc Hi].
  split; [|split].
  - destruct (Py.int (Py.of_Z y) 10) as [v|]; [|discriminate].
    apply Z.eqb_eq in Hi. now subst.
  - unfold free_of.
    destruct (Py.chars (Py.of_Z y)) as [|a [|b [|c [|e [|]]]]]; try discriminate.
    do 7 (apply andb_true_iff in Hc; destruct Hc as [Hc ?]).
    cbn [forallb]. repeat (apply andb_true_iff; split); auto.
  - intros rest.
    assert (Hs : Py.of_Z y = string_of_list_ascii (Py.chars (Py.of_Z y))).
    { unfold Py.chars. now rewrite string_of_list_ascii_of_string. }
    rewrite Hs at 2.
    destruct (Py.chars (Py.of_Z y)) as [|a [|b [|c [|e [|]]]]]; try discriminate.
    do 7 (apply andb_true_iff in Hc; destruct Hc as [Hc ?]).
    unfold TimeRE.re_Y, TimeRE.cat, TimeRE.bind, TimeRE.ret.
    cbn [app].
    repeat (rewrite d_digit by assumption; cbn [app flat_map fst snd]).
    reflexivity.
Qed.

Tactic Notation "field_cases" constr(n) integer(times) :=
  let k := fresh "k" in
  let Hn := fresh "Hn" in
  intros ?;
  assert (Hn : n = Z.of_nat (Z.to_nat n)) by lia;
  set (k := Z.to_nat n) in Hn; clearbody k; subst n;
  do times (destruct k as [|k];
            [first [exfalso; lia
                   | vm_compute; try eexists; repeat split; reflexivity]|]);
  exfalso; lia.

Lemma pad2_text n :
  0 <= n <= 59 ->
  Py.int (pad2 n) 10 = Ok n /\ free_of "." (pad2 n) = true.
Proof. field_cases n 60. Qed.

Lemma re_m_pad2 n rest :
  1 <= n <= 12 ->
  exists others,
    TimeRE.re_m (Py.chars (pad2 n) ++ rest) = (pad2 n, rest) :: others.
Proof. field_cases n 13. Qed.

Lemma re_d_pad2 n rest :
  1 <= n <= 31 ->
  exists others,
    TimeRE.re_d (Py.chars (pad2 n) ++ rest) = (pad2 n, rest) :: others.
Proof. field_cases n 32. Qed.

Lemma re_H_pad2 n rest :
  0 <= n <= 23 ->
  exists others,
    TimeRE.re_H (Py.chars (pad2 n) ++ rest) = (pad2 n, rest) :: others.
Proof. field_cases n 24. Qed.

Lemma re_M_pad2 n rest :
  0 <= n <= 59 ->
  exists others,
    TimeRE.re_M (Py.chars (pad2 n) ++ rest) = (pad2 n, rest) :: others.
Proof. field_cases n 60. Qed.

Lemma re_S_pad2 n rest :
  0 <= n <= 59 ->
  exists others,
    TimeRE.re_S (Py.chars (pad2 n) ++ rest) = (pad2 n, rest) :: others.
Proof. field_cases n 60. Qed.

Lemma bind_first {A B} (p : TimeRE.parser A) (f : A -> TimeRE.parser B) l a r x :
  (exists others, p l = (a, r) :: others) ->
  (exists xs, f a r = x :: xs) ->
  exists ys, TimeRE.bind p f l = x :: ys.
Proof.
  intros [others Hp] [xs Hf]. unfold TimeRE.bind. rewrite Hp.
  cbn [flat_map fst snd]. rewrite Hf. eexists. reflexivity.
Qed.

Lemma chr_first c rest :
  exists others,
    TimeRE.chr c (c :: rest) = (String c EmptyString, rest) :: others.
Proof.
  unfold TimeRE.chr, TimeRE.sat. rewrite Ascii.eqb_refl. eexists. reflexivity.
Qed.

Lemma chars_datetime_str y mo da ho mi se :
  Py.chars (datetime_str (mk_datetime y mo da ho mi se))
  = Py.chars (Py.of_Z y) ++ "-"%char :: Py.chars (pad2 mo)
    ++ "-"%char :: Py.chars (pad2 da) ++ "_"%char :: Py.chars (pad2 ho)
    ++ "-"%char :: Py.chars (pad2 mi) ++ "-"%char :: Py.chars (pad2 se) ++ [].
Proof.
  unfold datetime_str. cbn [year month day hour minute second].
  rewrite !chars_app, app_nil_r. reflexivity.
Qed.

Lemma days_in_month_le y m : days_in_month y m <= 31.
Proof.
  unfold days_in_month.
  destruct (m =? 2); [destruct (is_leap y); lia|].
  destruct (_ || _); lia.
Qed.

(** What the constructor of [datetime] checks. *)
Lemma new_datetime_ok y mo da ho mi se dt :
  new_datetime y mo da ho mi se = Ok dt ->
  dt = mk_datetime y mo da ho mi se
  /\ 1 <= y <= 9999 /\ 1 <= mo <= 12 /\ 1 <= da <= 31
  /\ 0 <= ho <= 23 /\ 0 <= mi <= 59 /\ 0 <= se <= 59.
Proof.
  unfold new_datetime.
  destruct (_ && _) eqn:E; [|discriminate].
  intros H. injection H as <-.
  repeat (apply andb_true_iff in E; destruct E as [E ?]).
  pose proof (days_in_month_le y mo).
  repeat match goal with H : (_ <=? _) = true |- _ => apply Z.leb_le in H end.
  repeat split; lia.
Qed.

Lemma format_regex_datetime_str y mo da ho mi se :
  1000 <= y <= 9999 -> 1 <= mo <= 12 -> 1 <= da <= 31 ->
  0 <= ho <= 23 -> 0 <= mi <= 59 -> 0 <= se <= 59 ->
  exists others,
    TimeRE.format_regex (Py.chars (datetime_str (mk_datetime y mo da ho mi se)))
    = ((Py.of_Z y, pad2 mo, pad2 da, pad2 ho, pad2 mi, pad2 se), []) :: others.
Proof.
  intros Hy Hmo Hda Hho Hmi Hse. rewrite chars_datetime_str.
  unfold TimeRE.format_regex.
  eapply bind_first.
  { exists []. apply (proj2 (proj2 (year_text y Hy))). }
  eapply bind_first; [apply chr_first|].
  eapply bind_first; [apply re_m_pad2; exact Hmo|].
  eapply bind_first; [apply chr_first|].
  eapply bind_first; [apply re_d_pad2; exact Hda|].
  eapply bind_first; [apply chr_first|].
  eapply bind_first; [apply re_H_pad2; exact Hho|].
  eapply bind_first; [apply chr_first|].
  eapply bind_first; [apply re_M_pad2; exact Hmi|].
  eapply bind_first; [apply chr_first|].
  eapply bind_first; [apply re_S_pad2; exact Hse|].
  eexists. reflexivity.
Qed.

Lemma strptime_valid s dt :
  strptime s = Ok dt ->
  new_datetime (year dt) (month dt) (day dt) (hour dt) (minute dt) (second dt)
  = Ok dt.
Proof.
  unfold strptime.
  destruct (TimeRE.format_regex (Py.chars s))
    as [|[[[[[[gY gm] gd] gH] gM] gS] rest] ms]; [discriminate|].
  destruct rest; [|discriminate].
  destruct (Py.int gY 10) as [y|]; [|discriminate].
  destruct (Py.int gm 10) as [mo|]; [|discriminate].
  destruct (Py.int gd 10) as [da|]; [|discriminate].
  destruct (Py.int gH 10) as [ho|]; [|discriminate].
  destruct (Py.int gM 10) as [mi|]; [|discriminate].
  destruct (Py.int gS 10) as [se|]; [|discriminate].
  cbn [bind_result]. intros H.
  destruct (new_datetime_ok _ _ _ _ _ _ _ H) as [-> _]. exact H.
Qed.

Lemma datetime_str_free_of_dot dt :
  new_datetime (year dt) (month dt) (day dt) (hour dt) (minute dt) (second dt)
  = Ok dt ->
  1000 <= year dt ->
  free_of "." (datetime_str dt) = true.
Proof.
  intros H Hy.
  destruct (new_datetime_ok _ _ _ _ _ _ _ H) as (_ & ? & ? & ? & ? & ? & ?).
  unfold datetime_str. rewrite !free_of_app.
  rewrite (proj1 (proj2 (year_text (year dt) ltac:(lia)))).
  rewrite !(fun n (Hn : 0 <= n <= 59) => proj2 (pad2_text n Hn)) by lia.
  reflexivity.
Qed.

Lemma strptime_datetime_str_ok dt :
  new_datetime (year dt) (month dt) (day dt) (hour dt) (minute dt) (second dt)
  = Ok dt ->
  1000 <= year dt ->
  strptime (datetime_str dt) = Ok dt.
Proof.
  intros H Hy.
  destruct (new_datetime_ok _ _ _ _ _ _ _ H) as (E & ? & ? & ? & ? & ? & ?).
  destruct (format_regex_datetime_str (year dt) (month dt) (day dt) (hour dt)
              (minute dt) (second dt)) as [others Hre]; try lia.
  rewrite <- E in Hre. unfold strptime. rewrite Hre.
  rewrite (proj1 (year_text (year dt) ltac:(lia))).
  rewrite !(fun n (Hn : 0 <= n <= 59) => proj1 (pad2_text n Hn)) by lia.
  cbn [bind_result]. exact H.
Qed.

(** X12: the text of the capture time reads back as the capture time.
    For every datetime of a year from 1000 on, [strptime] with the format
    of the file names gives, on [datetime_str], the datetime itself; so
    the text of a capture time read from any text the format accepts,
    padded or not, reads back as the same capture time. *)
Theorem strptime_datetime_str (dt : datetime) :
  1000 <= year dt ->
  (new_datetime (year dt) (month dt) (day dt) (hour dt) (minute dt) (second dt)
   = Ok dt ->
   strptime (datetime_str dt) = Ok dt)
  /\ (forall s, strptime s = Ok dt -> strptime (datetime_str dt) = Ok dt).
Proof.
  intros Hy. split.
  - intros Hv. exact (strptime_datetime_str_ok dt Hv Hy).
  - intros s Hs. apply strptime_datetime_str_ok; [|exact Hy].
    exact (strptime_valid s dt Hs).
Qed.

Lemma strptime_datetime_str_witness :
  datetime_str (mk_datetime 2020 6 20 21 33 24) = "2020-06-20_21-33-24"
  /\ strptime (datetime_str (mk_datetime 2020 6 20 21 33 24))
     = Ok (mk_datetime 2020 6 20 21 33 24).
Proof.
  split; [reflexivity|].
  refine (proj2 (strptime_datetime_str (mk_datetime 2020 6 20 21 33 24) _)
                "2020-6-20_21-33-24" _).
  - cbn. lia.
  - vm_compute. reflexivity.
Defined.

Lemma split_fields_free sep s :
  Forall (fun f => free_of sep f = true) (Py.split sep s).
Proof.
  induction s as [|x s IH]; [repeat constructor|].
  cbn [Py.split]. destruct (Ascii.eqb x sep) eqn:Ex.
  - constructor; [reflexivity | exact IH].
  - destruct (Py.split sep s) as [|f fs].
    + repeat constructor. rewrite free_of_cons, Ex. reflexivity.
    + inversion IH as [|? ? Hf Hfs]; subst. constructor; [|exact Hfs].
      rewrite free_of_cons, Ex. exact Hf.
Qed.

(** What [_device_datetime_info] has checked of a name it accepts. *)
Lemma device_datetime_info_ok filename info :
  _device_datetime_info filename = Ok info ->
  info_filename info = filename
  /\ free_of "." (device info) = true
  /\ String.length (device info) = 8%nat
  /\ is_ok (Py.int (device info) 16) = true
  /\ strptime (nth 1 (Py.split "." filename) EmptyString)
     = Ok (info_datetime info).
Proof.
  unfold _device_datetime_info.
  pose proof (split_fields_free "." filename) as Hfree.
  set (fields := Py.split "." filename) in *.
  destruct (Nat.eqb_spec (length fields) 3) as [Hn|Hn]; cbn [negb];
    [|discriminate].
  destruct (Nat.eqb_spec (String.length (nth 0 fields EmptyString)) 8)
    as [H8|H8]; cbn [negb].
  2: { discriminate. }
  destruct (Py.int (nth 0 fields EmptyString) 16) as [v|e] eqn:Ei.
  2: { destruct e; discriminate. }
  destruct (strptime (nth 1 fields EmptyString)) as [dt|e] eqn:Et.
  2: { destruct e; discriminate. }
  intros H. injection H as <-. cbn [device info_datetime info_filename].
  rewrite Ei. repeat split; try assumption.
  destruct fields as [|f fs]; [discriminate|].
  inversion Hfree; assumption.
Qed.

Lemma device_datetime_info_fields dev ts ext dt :
  free_of "." dev = true -> free_of "." ts = true -> free_of "." ext = true ->
  String.length dev = 8%nat -> is_ok (Py.int dev 16) = true ->
  strptime ts = Ok dt ->
  _device_datetime_info (dev +:+ "." +:+ ts +:+ "." +:+ ext)
  = Ok (mk_file_info dev dt (dev +:+ "." +:+ ts +:+ "." +:+ ext)).
Proof.
  intros Hd Ht He H8 Hi Hs. unfold _device_datetime_info.
  change (dev +:+ "." +:+ ts +:+ "." +:+ ext)
    with (dev +:+ String "." (ts +:+ String "." ext)).
  rewrite (split_app "." dev _ Hd), (split_app "." ts _ Ht), (split_free "." ext He).
  cbn [length Nat.eqb negb nth]. rewrite H8. cbn [Nat.eqb negb].
  destruct (Py.int dev 16); [|discriminate]. rewrite Hs. reflexivity.
Qed.

(** X13: the name built from the device and the text of the capture
    time of an accepted file name is accepted again, whatever the
    extension (without a dot), and gives the same device and the same
    capture time. *)
Theorem device_datetime_info_canonical_name
        (filename : string) (info : file_info) (ext : string) :
  _device_datetime_info filename = Ok info ->
  1000 <= year (info_datetime info) ->
  free_of "." ext = true ->
  _device_datetime_info
    (device info +:+ "." +:+ datetime_str (info_datetime info) +:+ "." +:+ ext)
  = Ok (mk_file_info
          (device info) (info_datetime info)
          (device info +:+ "." +:+ datetime_str (info_datetime info)
           +:+ "." +:+ ext)).
Proof.
  intros H Hy He.
  destruct (device_datetime_info_ok _ _ H) as (_ & Hd & H8 & Hi & Hs).
  pose proof (strptime_valid _ _ Hs) as Hv.
  apply device_datetime_info_fields; try assumption.
  - exact (datetime_str_free_of_dot _ Hv Hy).
  - exact (strptime_datetime_str_ok _ Hv Hy).
Qed.

Lemma device_datetime_info_canonical_name_witness :
  _device_datetime_info "5c173ff2.2020-06-20_21-33-24.svg"
  = Ok (mk_file_info "5c173ff2" (mk_datetime 2020 6 20 21 33 24)
                     "5c173ff2.2020-06-20_21-33-24.svg").
Proof.
  refine (device_datetime_info_canonical_name
            "5c173ff2.2020-6-20_21-33-24.jpg"
            (mk_file_info "5c173ff2" (mk_datetime 2020 6 20 21 33 24)
                          "5c173ff2.2020-6-20_21-33-24.jpg")
            "svg" _ _ _).
  - vm_compute. reflexivity.
  - cbn. lia.
  - reflexivity.
Defined.

(** ** The embedded bitmap *)

Lemma lstrip_unquoted l :
  forallb (fun c => negb (quote_char c)) l = true -> lstrip l = l.
Proof.
  destruct l as [|c r]; [reflexivity|]. cbn [forallb lstrip].
  intros H. apply andb_true_iff in H. destruct H as [Hc _].
  apply negb_true_iff in Hc. rewrite Hc. reflexivity.
Qed.

Lemma strip_quotes_unquoted s : unquoted s = true -> strip_quotes s = s.
Proof.
  unfold unquoted, strip_quotes. intros H.
  rewrite (lstrip_unquoted _ H).
  rewrite lstrip_unquoted.
  - rewrite rev_involutive. apply string_of_list_ascii_of_string.
  - rewrite forallb_forall in *. intros c Hc. apply H.
    apply in_rev. exact Hc.
Qed.

(** X14: what [extract_jpeg] gives. A document without exactly one
    raster element is refused. Of the reference of the element only what
    stands between the first comma and the second is read: a missing
    reference is a [KeyError], a reference without comma an [IndexError],
    and the media type before the comma is not looked at. For a payload
    without quotes, as base64 text is, the result is the payload decoded:
    the bytes [to_svg] embedded. *)
Theorem extract_jpeg_spec
        (b64decode : string -> result string) (doc : document)
        (target : option string) :
  (length (images doc) <> 1%nat ->
   extract_jpeg b64decode doc target
   = Raise (Exception ("Cannot extract image from " +:+ default "None" target)))
  /\ (forall im,
         images doc = [im] ->
         (im !! href = None ->
          extract_jpeg b64decode doc target = Raise (KeyError href))
         /\ (forall reference,
                im !! href = Some reference -> free_of "," reference = true ->
                extract_jpeg b64decode doc target = Raise IndexError)
         /\ (forall media payload,
                im !! href = Some (media +:+ "," +:+ payload) ->
                free_of "," media = true -> free_of "," payload = true ->
                unquoted payload = true ->
                extract_jpeg b64decode doc target = b64decode payload)).
Proof.
  unfold extract_jpeg. split.
  - intros Hn. destruct (Nat.eqb_spec (length (images doc)) 1); [contradiction|].
    reflexivity.
  - intros im ->. cbn [length Nat.eqb negb]. unfold _extract_jpeg_id.
    cbn [lookup list_lookup]. unfold attrib_get. split; [|split].
    + intros ->. reflexivity.
    + intros reference -> Hfree. cbn [bind_result].
      rewrite (split_free _ _ Hfree). reflexivity.
    + intros media payload -> Hm Hp Hq. cbn [bind_result].
      change (media +:+ "," +:+ payload) with (media +:+ String "," payload).
      rewrite (split_app _ _ _ Hm), (split_free _ _ Hp).
      rewrite (strip_quotes_unquoted _ Hq). reflexivity.
Qed.

Lemma extract_jpeg_spec_witness :
  extract_jpeg (fun s => Ok s) doc_twice None = Ok "AAAA".
Proof.
  refine (proj2 (proj2 (proj2 (extract_jpeg_spec (fun s => Ok s) doc_twice None)
                               _ eq_refl))
                "data:image/jpeg;base64" "AAAA" _ _ _ _);
    vm_compute; reflexivity.
Defined.

(** ** Detector tags *)

Lemma pick_ok d keys items :
  pick d keys = Ok items ->
  map fst items = keys /\ Forall (fun kv => d !! fst kv = Some (snd kv)) items.
Proof.
  revert items. induction keys as [|k keys IH]; cbn [pick]; intros items H.
  - injection H as <-. split; [reflexivity | constructor].
  - destruct (d !! k) as [v|] eqn:Hk; [|discriminate].
    destruct (pick d keys) as [items'|] eqn:Hp; [|discriminate].
    cbn [bind_result] in H. injection H as <-.
    destruct (IH _ eq_refl) as [Hm Hall]. split.
    + cbn. now rewrite Hm.
    + constructor; [exact Hk | exact Hall].
Qed.

Lemma pick_raises d keys e :
  pick d keys = Raise e -> exists k, e = KeyError k /\ In k keys /\ d !! k = None.
Proof.
  induction keys as [|k keys IH]; cbn [pick]; [discriminate|].
  destruct (d !! k) as [v|] eqn:Hk.
  - destruct (pick d keys) as [items'|e'] eqn:Hp; [discriminate|].
    cbn [bind_result]. intros H. injection H as <-.
    destruct (IH eq_refl) as (k' & -> & Hin & Hnone).
    exists k'. repeat split; [right; exact Hin | exact Hnone].
  - intros H. injection H as <-. exists k. repeat split; [left; reflexivity | exact Hk].
Qed.

Lemma pick_missing d keys k :
  In k keys -> d !! k = None -> exists k', pick d keys = Raise (KeyError k').
Proof.
  induction keys as [|k0 keys IH]; [intros []|].
  intros Hin Hnone. cbn [pick].
  destruct (d !! k0) as [v|] eqn:Hk0; [|eauto].
  destruct Hin as [->|Hin]; [congruence|].
  destruct (IH Hin Hnone) as [k' ->]. eauto.
Qed.

(** X15: [annotation_dict] has no fallback for untagged metadata. When
    one of the five keys it passes on is missing from the metadata, the
    call does not return a dictionary with empty metadata: it fails on
    the unbound variable [metadata_to_pass], with and without JSON. And
    what it returns without JSON holds exactly the five keys, with the
    values of the metadata. *)
Theorem annotation_dict_needs_tags
        (json_dumps : list pyval -> list (string * meta_value) -> result string)
        (annotations : list (result pyval)) (dicts : list pyval) (d : gmap string meta_value) :
  to_dicts annotations = Ok dicts ->
  ((exists k, In k passed_keys /\ d !! k = None) ->
   forall as_json,
     annotation_dict json_dumps annotations as_json (Some d)
     = inr (UnboundLocalError "metadata_to_pass"))
  /\ (forall out,
         annotation_dict json_dumps annotations false (Some d) = inl out ->
         exists items,
           out = AsDict dicts items
           /\ map fst items = passed_keys
           /\ Forall (fun kv => d !! fst kv = Some (snd kv)) items).
Proof.
  intros Hd. unfold annotation_dict. rewrite Hd. split.
  - intros (k & Hin & Hnone) as_json.
    destruct (pick_missing d passed_keys k Hin Hnone) as [k' ->]. reflexivity.
  - intros out.
    destruct (pick d passed_keys) as [items|e] eqn:Hp.
    + intros H. injection H as <-. exists items.
      destruct (pick_ok _ _ _ Hp) as [Hm Hall]. repeat split; assumption.
    + destruct (pick_raises _ _ _ Hp) as (k & -> & _). discriminate.
Qed.

Lemma annotation_dict_needs_tags_witness :
  annotation_dict (fun _ _ => Ok "{}") [Ok (PyDict [])] true
                  (Some {[ "Make" := Plain (PyDict []) ]})
  = inr (UnboundLocalError "metadata_to_pass").
Proof.
  refine (proj1 (annotation_dict_needs_tags (fun _ _ => Ok "{}") [Ok (PyDict [])]
                   [PyDict []] {[ "Make" := Plain (PyDict []) ]} eq_refl) _ true).
  exists "device". split; [left; reflexivity | reflexivity].
Defined.

(** X16: after [tag_detector_version(name, version)] on an image whose
    metadata decodes and whose file has a checksum, [annotation_dict]
    returns, whatever the metadata held before: the device and the
    datetime object of the file name, the name and the version given,
    and the checksum; [algo_version] is the version given, without a
    warning. With JSON, it is this dictionary, datetime object included,
    that [json.dumps] is given. *)
Theorem tag_then_annotation_dict
        (json_dumps : list pyval -> list (string * meta_value) -> result string)
        (decoded : result (gmap string meta_value)) (md5 : result string) (filename : string)
        (name version : pyval) (m : option (gmap string meta_value)) (d : gmap string meta_value)
        (info : file_info) (sum : string)
        (annotations : list (result pyval)) (dicts : list pyval) :
  fst (force_metadata decoded m) = Ok d ->
  md5 = Ok sum ->
  _device_datetime_info filename = Ok info ->
  to_dicts annotations = Ok dicts ->
  let tagged := tag_detector_version decoded md5 filename name version m in
  let items := [("device", Plain (PyStr (device info)));
                ("datetime", DatetimeObject (info_datetime info));
                ("algo_name", Plain name);
                ("algo_version", Plain version);
                ("md5", Plain (PyStr sum))] in
  fst tagged = Ok tt
  /\ annotation_dict json_dumps annotations false (snd tagged)
     = inl (AsDict dicts items)
  /\ annotation_dict json_dumps annotations true (snd tagged)
     = match json_dumps dicts items with
       | Ok text => inl (AsJson text)
       | Raise e => inr (Raised e)
       end
  /\ algo_version (snd tagged) = (Ok (Plain version), []).
Proof.
  intros Hf -> Hi Hd. cbn zeta. unfold tag_detector_version.
  destruct (force_metadata decoded m) as [r m'] eqn:Ef. cbn [fst] in Hf. subst r.
  rewrite Hi. cbn [fst snd]. split; [reflexivity|].
  unfold annotation_dict, algo_version, passed_keys. cbn [pick]. rewrite Hd.
  repeat (first [rewrite lookup_insert_eq
                | rewrite lookup_insert_ne by discriminate]).
  cbn [bind_result]. repeat split; reflexivity.
Qed.

Lemma tag_then_annotation_dict_witness :
  annotation_dict (fun _ _ => Raise TypeError) [] true
    (snd (tag_detector_version (Ok ∅) (Ok "0cc175b9") "5c173ff2.2020-06-20_21-33-24.jpg"
                               (PyStr "uid") (PyStr "1") None))
  = inr (Raised TypeError).
Proof.
  exact (proj1 (proj2 (proj2
           (tag_then_annotation_dict (fun _ _ => Raise TypeError)
              (Ok ∅) (Ok "0cc175b9") "5c173ff2.2020-06-20_21-33-24.jpg"
              (PyStr "uid") (PyStr "1") None ∅
              (mk_file_info "5c173ff2" (mk_datetime 2020 6 20 21 33 24)
                            "5c173ff2.2020-06-20_21-33-24.jpg")
              "0cc175b9" [] [] eq_refl eq_refl eq_refl eq_refl)))).
Defined.

(** ** The annotations of a decoded image *)

Lemma svg_path_to_contour_long parse_path cabs scale p contours log :
  _svg_path_to_contour parse_path cabs scale p = (Ok contours, log) ->
  Forall (fun c : contour => (2 < length c)%nat) contours.
Proof.
  unfold _svg_path_to_contour. intros H.
  apply logged_bind_ok in H. destruct H as (d & l1 & l2 & _ & H & _).
  destruct (parse_path d) as [path|e].
  - apply contours_loop_ok in H. subst contours. cbn [app].
    apply List.Forall_forall. intros c Hc. apply in_map_iff in Hc.
    destruct Hc as (sp & <- & Hsp). apply filter_In in Hsp.
    destruct Hsp as [_ Hk]. unfold ctr_of. rewrite length_map.
    apply Nat.ltb_lt. exact Hk.
  - destruct e; try discriminate.
    injection H as <- _. constructor.
Qed.

Lemma annotate_ok style contours annotations out :
  annotate style contours annotations = Ok out ->
  exists added,
    out = annotations ++ added
    /\ Forall2 (fun c a => annotation_contour a = c
                           /\ style !! "stroke" = Some (annotation_stroke a))
               contours added.
Proof.
  revert annotations. induction contours as [|c rest IH]; intros annotations.
  - cbn. intros [= <-]. exists []. rewrite app_nil_r. split; [reflexivity|constructor].
  - cbn [annotate]. unfold attrib_get.
    destruct (style !! "stroke") as [stroke|] eqn:Hs; [|discriminate].
    cbn [bind_result]. intros H. apply IH in H.
    destruct H as (added & -> & Hall).
    exists (mk_annotation c stroke :: added). split.
    + rewrite <- app_assoc. reflexivity.
    + constructor; [split; reflexivity | exact Hall].
Qed.

Lemma annotations_loop_ok parse_path cabs scale (P : annotation -> Prop) all_paths :
  (forall p style c a,
      In p all_paths -> _style_to_dic p = Ok style ->
      (2 < length c)%nat -> annotation_contour a = c ->
      style !! "stroke" = Some (annotation_stroke a) -> P a) ->
  forall ps annotations out log,
    (forall p, In p ps -> In p all_paths) ->
    Forall P annotations ->
    annotations_loop parse_path cabs scale ps annotations = (Ok out, log) ->
    Forall P out.
Proof.
  intros HP. induction ps as [|p ps IH]; intros annotations out log Hin Hacc.
  - cbn. intros [= <- _]. exact Hacc.
  - cbn [annotations_loop]. intros H.
    apply logged_bind_ok in H. destruct H as (style & l1 & l2 & Hs & H & _).
    apply logged_bind_ok in H. destruct H as (contours & l3 & l4 & Hc & H & _).
    apply logged_bind_ok in H. destruct H as (anns & l5 & l6 & Ha & H & _).
    unfold lift in Hs, Ha. injection Hs as Hs _. injection Ha as Ha _.
    apply (IH anns out l6); [intros q Hq; apply Hin; right; exact Hq | | exact H].
    apply annotate_ok in Ha. destruct Ha as (added & -> & Hall).
    apply Forall_app. split; [exact Hacc|].
    pose proof (svg_path_to_contour_long _ _ _ _ _ _ Hc) as Hlong.
    clear -HP Hin Hs Hall Hlong. 
    induction Hall as [|c a cs added' [Hca Hst] _ IHa]; [constructor|].
    inversion Hlong as [|? ? Hl Hls]; subst.
    constructor; [|exact (IHa Hls)].
    apply (HP p style (annotation_contour a) a); auto.
    apply Hin. left. reflexivity.
Qed.

(** X17: every annotation of a decoded document is a polygon: its
    contour has more than two points; and its stroke is the stroke of the
    style of a path of the document. *)
Theorem parse_annotations_postcondition
        (parse_path : string -> result (list segment)) (cabs : Q -> Q -> Q)
        (scale : Q * Q) (doc : document)
        (annotations : list annotation) (log : list log_record) :
  _parse_annotations parse_path cabs scale doc = (Ok annotations, log) ->
  Forall (fun a =>
            (2 < length (annotation_contour a))%nat
            /\ exists p style,
                In p (paths doc) /\ _style_to_dic p = Ok style
                /\ style !! "stroke" = Some (annotation_stroke a))
         annotations.
Proof.
  unfold _parse_annotations.
  apply (annotations_loop_ok parse_path cabs scale _ (paths doc)).
  - intros p style c a Hin Hs Hl <- Hst. split; [exact Hl|]. eauto.
  - auto.
  - constructor.
Qed.

Lemma parse_annotations_postcondition_witness :
  Forall (fun a =>
            (2 < length (annotation_contour a))%nat
            /\ exists p style,
                In p (paths doc_two_paths) /\ _style_to_dic p = Ok style
                /\ style !! "stroke" = Some (annotation_stroke a))
         [mk_annotation [(4, 4); (8, 4); (8, 8)] "#ff0000";
          mk_annotation [(4, 4); (8, 4); (8, 8)] "#ff0000"].
Proof.
  refine (parse_annotations_postcondition parse_path_examples cabs_approx (1, 1)%Q
            doc_two_paths _ [short_warning] _).
  vm_compute. reflexivity.
Defined.

(** ** The bitmap and its cache *)

Lemma read_consistent {array} (shape_of : array -> list Z) imread cache st :
  Cache.consistent array shape_of st ->
  Cache.consistent array shape_of (snd (Cache.read array shape_of imread cache st)).
Proof.
  unfold Cache.consistent, Cache.read. intros H.
  destruct (Cache._cached_image array st) as [c|] eqn:Ec.
  - cbn. intros im [= <-]. reflexivity.
  - destruct (Cache._get_array array imread) as [im|e]; cbn.
    + destruct cache; intros im' [= <-]. reflexivity.
    + rewrite Ec. discriminate.
Qed.

Lemma step_consistent {array} (shape_of : array -> list Z) st c :
  Cache.consistent array shape_of st ->
  Cache.consistent array shape_of (Cache.step array shape_of st c).
Proof.
  intros H. destruct c as [imread cache|imread|]; cbn [Cache.step].
  - apply read_consistent, H.
  - unfold Cache.shape. destruct (Cache._shape array st) as [s|] eqn:Es.
    + exact H.
    + pose proof (read_consistent shape_of imread false st H) as Hr.
      destruct (Cache.read array shape_of imread false st) as [[im|e] st']; exact Hr.
  - intros im. cbn. discriminate.
Qed.

Lemma after_consistent {array} (shape_of : array -> list Z) calls :
  Cache.consistent array shape_of (Cache.after array shape_of calls).
Proof.
  unfold Cache.after.
  assert (H : Cache.consistent array shape_of (Cache.initial array))
    by (intros im; discriminate).
  revert H. generalize (Cache.initial array).
  induction calls as [|c calls IH]; intros st H; cbn [fold_left]; [exact H|].
  apply IH, step_consistent, H.
Qed.

(** X18: once a bitmap is cached, the image answers from the cache.
    After any history of calls of [read], [shape] and [clear_cache] that
    leaves a bitmap cached, [read] returns this bitmap and [shape] its
    shape, whatever the file holds by then, readable or not, and neither
    changes the image. *)
Theorem read_answers_from_cache
        {array : Type} (shape_of : array -> list Z)
        (calls : list (Cache.call array)) (im : array)
        (imread : option array) (cache : bool) :
  let st := Cache.after array shape_of calls in
  Cache._cached_image array st = Some im ->
  Cache.read array shape_of imread cache st = (Ok im, st)
  /\ Cache.shape array shape_of imread st = (Ok (Some (shape_of im)), st).
Proof.
  intros st Hc. pose proof (after_consistent shape_of calls im Hc) as Hs.
  fold st in Hs. unfold Cache.read, Cache.shape. rewrite Hc, Hs.
  destruct st as [c s]. cbn in Hc, Hs. subst c s. split; reflexivity.
Qed.

Lemma read_answers_from_cache_witness :
  Cache.read (list Z) (fun a => [Z.of_nat (length a)]) None false
             (Cache.after (list Z) (fun a => [Z.of_nat (length a)])
                          [Cache.Read (list Z) (Some [7; 7; 7]) true])
  = (Ok [7; 7; 7],
     Cache.after (list Z) (fun a => [Z.of_nat (length a)])
                 [Cache.Read (list Z) (Some [7; 7; 7]) true]).
Proof.
  exact (proj1 (read_answers_from_cache (fun a => [Z.of_nat (length a)])
                  [Cache.Read (list Z) (Some [7; 7; 7]) true] [7; 7; 7] None false
                  eq_refl)).
Defined.

(** ** The metadata of a photograph *)

(** X19: what [_decode_metadata] makes of the maker note. A photograph
    without EXIF data or without the tag [Make] fails the decoding. A
    [Make] that evaluates is replaced by its value and the other tags are
    kept. A [Make] the evaluator refuses with [ValueError] only gives a
    warning, and the tags are returned as they are; any other exception
    of the evaluator, such as the [SyntaxError] of a maker name of two
    words, is raised to the caller. *)
Theorem decode_metadata_spec
        (literal_eval : string -> result pyval) (out : gmap string pyval) :
  _decode_metadata literal_eval None = (Raise AttributeError, [])
  /\ (out !! "Make" = None ->
      _decode_metadata literal_eval (Some out) = (Raise (KeyError "Make"), []))
  /\ (forall s v,
         out !! "Make" = Some (PyStr s) -> literal_eval s = Ok v ->
         _decode_metadata literal_eval (Some out) = (Ok (<["Make" := v]> out), [])
         /\ forall k, k <> "Make" -> (<["Make" := v]> out) !! k = out !! k)
  /\ (forall s,
         out !! "Make" = Some (PyStr s) -> literal_eval s = Raise ValueError ->
         _decode_metadata literal_eval (Some out)
         = (Ok out, [(WARNING, "Missing custom metadata in %s, Make is `%s`")]))
  /\ (forall s e,
         out !! "Make" = Some (PyStr s) -> literal_eval s = Raise e ->
         e <> ValueError ->
         _decode_metadata literal_eval (Some out) = (Raise e, [])).
Proof.
  unfold _decode_metadata. split; [reflexivity|].
  split; [intros ->; reflexivity|].
  split; [|split].
  - intros s v -> Hv. cbn [eval_make]. rewrite Hv. split; [reflexivity|].
    intros k Hk. apply lookup_insert_ne. congruence.
  - intros s -> Hv. cbn [eval_make]. rewrite Hv. reflexivity.
  - intros s e -> Hv Hne. cbn [eval_make]. rewrite Hv.
    destruct e; try reflexivity. contradiction.
Qed.

Lemma decode_metadata_spec_witness :
  _decode_metadata Literal.literal_eval
                   (Some {[ "Make" := PyStr "Raspberry Pi"; "Model" := PyStr "RP_imx477" ]})
  = (Raise SyntaxError, []).
Proof.
  refine (proj2 (proj2 (proj2 (proj2
            (decode_metadata_spec Literal.literal_eval
               {[ "Make" := PyStr "Raspberry Pi"; "Model" := PyStr "RP_imx477" ]}))))
            "Raspberry Pi" SyntaxError _ _ _).
  - reflexivity.
  - vm_compute. reflexivity.
  - discriminate.
Defined.
